(** * Verification of [src/ai/learning.py]: the Deep Q-Learning snake agent

    A shallow embedding of [DeepQNetwork] and [DeepQLearningModel] and the
    properties their specification states.

    - Python integers are [Z]; Python and tensor floating-point numbers are
      an abstract type [R] with the operations of the class [Scalar].
    - Exceptions are the [Raise] results of the type [result].
    - The tensor library is reached through three interfaces: [Scalar]
      (arithmetic), [Backend] (automatic differentiation, the Adam
      optimiser, serialisation) and [Random] (Python's [random] module).
    - The collaborators [Snake], [Food] and [Board] are records holding what
      the calls the agent makes on them return. *)

From Stdlib Require Import ZArith QArith Qcanon Lia.
From stdpp Require Import base option list strings gmap.

(** ** Python results *)

Inductive exn : Type :=
  | ZeroDivisionError
  | ValueError
  | IndexError
  | RuntimeError
  | OSError.

Inductive result (A : Type) : Type :=
  | Ok (a : A)
  | Raise (e : exn).

Arguments Ok {A} a.
Arguments Raise {A} e.

#[global] Instance result_ret : MRet result := fun _ a => Ok a.

#[global] Instance result_bind : MBind result := fun _ _ f r =>
  match r with
  | Ok a => f a
  | Raise e => Raise e
  end.

(** [mapM] for [result]: the first exception wins. *)
Fixpoint traverse {A B : Type} (f : A → result B) (l : list A) : result (list B) :=
  match l with
  | [] => Ok []
  | a :: l' => b ← f a; bs ← traverse f l'; Ok (b :: bs)
  end.

(** ** Numbers *)

(** The floating-point numbers of Python ([float]) and of the tensor library
    ([torch.float32]). The laws are the ones the proofs below use; they hold
    of the finite floating-point numbers and of exact arithmetic. *)
Class Scalar (R : Type) : Type := {
  rzero : R;
  rone : R;
  radd : R → R → R;
  rsub : R → R → R;
  rmul : R → R → R;
  rdiv : R → R → R;
  (** [x <= y] *)
  rleb : R → R → bool;
  (** [float(n)] for an integer [n] *)
  of_Z : Z → R;
  (** Python's [a / b] on two integers, [b] not zero *)
  truediv : Z → Z → R;
  rleb_total : ∀ x y, rleb x y = true ∨ rleb y x = true;
  rleb_trans : ∀ x y z, rleb x y = true → rleb y z = true → rleb x z = true;
  radd_0_r : ∀ x, radd x rzero = x;
  rmul_0_r : ∀ x, rmul x rzero = rzero;
  rmul_1_r : ∀ x, rmul x rone = x;
  rmul_le_self : ∀ e d,
    rleb rzero e = true → rleb d rone = true → rleb (rmul e d) e = true;
}.

(** A Python number: an [int] or a [float]. *)
Inductive number (R : Type) : Type :=
  | Int (z : Z)
  | Float (x : R).

Arguments Int {R} z.
Arguments Float {R} x.

(** ** The collaborators of the agent (specification, section 6) *)

(** What the agent reads of a snake: [head_position()], [direction], [body],
    [get_next_head_position()] and [has_collision()]. *)
Record Snake : Type := {
  head_position : Z * Z;
  direction : string;
  body : list (Z * Z);
  get_next_head_position : Z * Z;
  has_collision : bool;
}.

(** The snake with another [body]. *)
Definition set_body (snake : Snake) (segments : list (Z * Z)) : Snake :=
  {| head_position := head_position snake;
     direction := direction snake;
     body := segments;
     get_next_head_position := get_next_head_position snake;
     has_collision := has_collision snake |}.

Record Food : Type := {
  position : Z * Z;
}.

Record Board : Type := {
  width : Z;
  height : Z;
  is_within_bounds : Z * Z → bool;
}.

(** ** The reward function and the feature extractor *)

(** [abs(x1 - x2) + abs(y1 - y2)] *)
Definition manhattan (p q : Z * Z) : Z :=
  (Z.abs (p.1 - q.1) + Z.abs (p.2 - q.2))%Z.

(** [DeepQLearningModel.get_reward]; [self] is not used by the body. *)
Definition get_reward (snake : Snake) (food : Food) (board : Board) : Z :=
  let '(fruit_x, fruit_y) := position food in
  let '(next_head_x, next_head_y) := get_next_head_position snake in
  let dist_to_food_before :=
    (Z.abs ((head_position snake).1 - fruit_x)
     + Z.abs ((head_position snake).2 - fruit_y))%Z in
  let dist_to_food_after :=
    (Z.abs (next_head_x - fruit_x) + Z.abs (next_head_y - fruit_y))%Z in
  if negb (is_within_bounds board (next_head_x, next_head_y)) || has_collision snake
  then (-10)%Z
  else if (next_head_x =? fruit_x)%Z && (next_head_y =? fruit_y)%Z
  then 10%Z
  else if (dist_to_food_after <? dist_to_food_before)%Z
  then 1%Z
  else (-1)%Z.

(** The four flags [body_up, body_down, body_left, body_right]. *)
Record body_flags : Type := {
  body_up : Z;
  body_down : Z;
  body_left : Z;
  body_right : Z;
}.

(** One turn of the loop [for segment in snake.body] of [get_state]. *)
Definition body_step (head_x head_y : Z) (fl : body_flags) (segment : Z * Z)
  : body_flags :=
  if (segment.1 =? head_x)%Z && (segment.2 <? head_y)%Z then
    {| body_up := 1; body_down := body_down fl;
       body_left := body_left fl; body_right := body_right fl |}
  else if (segment.1 =? head_x)%Z && (segment.2 >? head_y)%Z then
    {| body_up := body_up fl; body_down := 1;
       body_left := body_left fl; body_right := body_right fl |}
  else if (segment.2 =? head_y)%Z && (segment.1 <? head_x)%Z then
    {| body_up := body_up fl; body_down := body_down fl;
       body_left := 1; body_right := body_right fl |}
  else if (segment.2 =? head_y)%Z && (segment.1 >? head_x)%Z then
    {| body_up := body_up fl; body_down := body_down fl;
       body_left := body_left fl; body_right := 1 |}
  else fl.

Definition body_scan (head_x head_y : Z) (segments : list (Z * Z)) : body_flags :=
  fold_left (body_step head_x head_y) segments
    {| body_up := 0; body_down := 0; body_left := 0; body_right := 0 |}.

(** [int(b)] *)
Definition int_of_bool (b : bool) : Z := if b then 1%Z else 0%Z.

(** The 0/1 indicator of a decidable proposition. *)
Definition indicator (P : Prop) `{!Decision P} : Z := if decide P then 1%Z else 0%Z.

Section Features.
Context {R : Type} `{!Scalar R}.

(** Python's [a / b] on integers: [ZeroDivisionError] when [b] is zero. *)
Definition pydiv (a b : Z) : result R :=
  if (b =? 0)%Z then Raise ZeroDivisionError else Ok (truediv a b).

(** [DeepQLearningModel.get_state]; [self] is not used by the body. *)
Definition get_state (snake : Snake) (food : Food) (board : Board)
  : result (list (number R)) :=
  let '(head_x, head_y) := head_position snake in
  let '(fruit_x, fruit_y) := position food in
  rel_food_x ← pydiv (fruit_x - head_x) (width board);
  rel_food_y ← pydiv (fruit_y - head_y) (height board);
  let dir_up := int_of_bool (String.eqb (direction snake) "UP") in
  let dir_down := int_of_bool (String.eqb (direction snake) "DOWN") in
  let dir_left := int_of_bool (String.eqb (direction snake) "LEFT") in
  let dir_right := int_of_bool (String.eqb (direction snake) "RIGHT") in
  dist_wall_up ← pydiv head_y (height board);
  dist_wall_down ← pydiv (height board - head_y) (height board);
  dist_wall_left ← pydiv head_x (width board);
  dist_wall_right ← pydiv (width board - head_x) (width board);
  let fl := body_scan head_x head_y (body snake) in
  Ok [ Float rel_food_x; Float rel_food_y;
       Int dir_up; Int dir_down; Int dir_left; Int dir_right;
       Float dist_wall_up; Float dist_wall_down;
       Float dist_wall_left; Float dist_wall_right;
       Int (body_up fl); Int (body_down fl);
       Int (body_left fl); Int (body_right fl) ].

End Features.

(** ** The Q-network *)

Section Network.
Context {R : Type} `{!Scalar R}.

(** [x < y] *)
Definition rltb (x y : R) : bool := negb (rleb y x).

(** Python's [max(a, b)]: [b] when [b > a], else [a]. *)
Definition pymax (a b : R) : R := if rltb a b then b else a.

(** [float(x)] on a Python number; the entries of
    [torch.tensor(xs, dtype=torch.float)]. *)
Definition to_float (n : number R) : R :=
  match n with
  | Int z => of_Z z
  | Float x => x
  end.

Definition tensor (xs : list (number R)) : list R := map to_float xs.

(** [nn.Linear(in_features, out_features)]: [weight] has one row per
    output. *)
Record Linear : Type := {
  in_features : nat;
  out_features : nat;
  weight : list (list R);
  bias : list R;
}.

Definition dot (u v : list R) : R := foldr radd rzero (zip_with rmul u v).

(** Applying a layer to one input row; a row of the wrong width is the
    library's shape-mismatch error. *)
Definition linear (l : Linear) (x : list R) : result (list R) :=
  if decide (length x = in_features l)
  then Ok (zip_with radd (map (dot x) (weight l)) (bias l))
  else Raise RuntimeError.

(** [torch.relu] on one entry *)
Definition relu (x : R) : R := if rleb x rzero then rzero else x.

Record DeepQNetwork : Type := {
  linear1 : Linear;
  linear2 : Linear;
  linear3 : Linear;
}.

(** [DeepQNetwork.forward] on one input row *)
Definition forward (net : DeepQNetwork) (x : list R) : result (list R) :=
  x ← linear (linear1 net) x;
  let x := map relu x in
  x ← linear (linear2 net) x;
  let x := map relu x in
  x ← linear (linear3 net) x;
  Ok x.

(** [torch.max(t)] over all entries of [t] *)
Definition tensor_max (t : list R) : result R :=
  match t with
  | [] => Raise RuntimeError
  | x :: t' => Ok (fold_left (λ m y, if rltb m y then y else m) t' x)
  end.

Fixpoint argmax_from (best_i : nat) (best : R) (i : nat) (t : list R) : nat :=
  match t with
  | [] => best_i
  | y :: t' =>
      if rltb best y then argmax_from i y (S i) t'
      else argmax_from best_i best (S i) t'
  end.

(** [torch.argmax(t).item()]: the first position of the largest entry *)
Definition argmax (t : list R) : result nat :=
  match t with
  | [] => Raise IndexError
  | x :: t' => Ok (argmax_from 0 x 1 t')
  end.

(** [nn.MSELoss()]: the mean of the squared differences *)
Definition mse (input target : list R) : R :=
  rdiv (foldr radd rzero
          (zip_with (λ p t, rmul (rsub p t) (rsub p t)) input target))
       (of_Z (Z.of_nat (length input))).

(** [t[0, i] = v] on a tensor of one row *)
Definition setitem (t : list R) (i : nat) (v : R) : result (list R) :=
  if decide (i < length t) then Ok (<[i := v]> t) else Raise IndexError.

(** [q.gather(1, actions.unsqueeze(1)).squeeze(1)]: entry [actions[i]] of
    row [i] *)
Definition gather (q : list (list R)) (actions : list nat) : result (list R) :=
  traverse (λ '(row, a),
              match row !! a with
              | Some v => Ok v
              | None => Raise RuntimeError
              end)
           (zip q actions).

(** The network keeps the shapes of the parameters it was built with. *)
Definition same_shape (a b : Linear) : bool :=
  bool_decide (in_features a = in_features b)
  && bool_decide (out_features a = out_features b).

(** [model.load_state_dict(sd)], strict: a size mismatch raises *)
Definition load_state_dict (net sd : DeepQNetwork) : result DeepQNetwork :=
  if same_shape (linear1 net) (linear1 sd)
     && same_shape (linear2 net) (linear2 sd)
     && same_shape (linear3 net) (linear3 sd)
  then Ok sd
  else Raise RuntimeError.

(** The shape conditions the shape checks of the library rest on: every
    layer has one weight row and one bias per output, and each layer takes
    what the one before it gives. A network built by [DeepQNetwork.__init__]
    satisfies them. *)
Definition wf_linear (l : Linear) : Prop :=
  length (weight l) = out_features l ∧ length (bias l) = out_features l.

Definition wf_network (net : DeepQNetwork) : Prop :=
  wf_linear (linear1 net) ∧ wf_linear (linear2 net) ∧ wf_linear (linear3 net)
  ∧ in_features (linear2 net) = out_features (linear1 net)
  ∧ in_features (linear3 net) = out_features (linear2 net).

End Network.

Arguments Linear R : clear implicits.
Arguments DeepQNetwork R : clear implicits.

(** ** The tensor library and the random module *)

(** Automatic differentiation, the Adam optimiser and serialisation. *)
Class Backend (R : Type) : Type := {
  (** one gradient tensor per parameter *)
  grads : Type;
  (** what [backward()] does to a [.grad] that is already set *)
  gadd : grads → grads → grads;
  (** the gradient of a scalar loss at the given parameters *)
  autograd : (DeepQNetwork R → R) → DeepQNetwork R → grads;
  (** the moments and step counts of [optim.Adam] *)
  adam_state : Type;
  (** one [optimizer.step()] with learning rate [lr] *)
  adam_step : R → adam_state → DeepQNetwork R → grads → adam_state * DeepQNetwork R;
  (** the bytes of a saved [state_dict] *)
  blob : Type;
  torch_save : DeepQNetwork R → blob;
  torch_load : blob → result (DeepQNetwork R);
}.

(** Python's [random] module: a generator state and the three calls the agent
    makes. [sample g n k] gives the positions that [random.sample] picks in a
    population of [n] elements. *)
Class Random (R : Type) `{!Scalar R} : Type := {
  rng : Type;
  random : rng → R * rng;
  randint : rng → Z → Z → Z * rng;
  sample : rng → nat → nat → list nat * rng;
  random_range : ∀ g,
    rleb rzero (random g).1 = true ∧ rltb (random g).1 rone = true;
  randint_range : ∀ g a b, (a ≤ b)%Z → (a ≤ (randint g a b).1 ≤ b)%Z;
  sample_spec : ∀ g n k, k ≤ n →
    length (sample g n k).1 = k
    ∧ NoDup (sample g n k).1
    ∧ Forall (λ i, i < n) (sample g n k).1;
}.

(** ** The learning agent *)

(** What is at a path of the file system. *)
Inductive node (B : Type) : Type :=
  | File (b : B)
  | Dir.

Arguments File {B} b.
Arguments Dir {B}.

Section Agent.
Context {R : Type} `{!Scalar R} `{!Backend R} `{!Random R}.

(** The tuple [(state, action, reward, next_state, done)]. *)
Record Transition : Type := {
  t_state : list (number R);
  t_action : nat;
  t_reward : number R;
  t_next_state : list (number R);
  t_done : bool;
}.

(** The fields of a [DeepQLearningModel]. [max_memory] is the [maxlen] of
    the deque [memory]; [training] and [grad] are the mode and the [.grad]
    of the parameters of [model]; [learning_rate], [optimizer] and
    [optimizer_steps] are the Adam optimiser, the last one counting its
    [step()] calls. *)
Record DeepQLearningModel : Type := {
  state_space_size : nat;
  action_space_size : Z;
  gamma : R;
  memory : list Transition;
  max_memory : nat;
  batch_size : nat;
  model : DeepQNetwork R;
  training : bool;
  grad : option grads;
  learning_rate : R;
  optimizer : adam_state;
  optimizer_steps : nat;
  epsilon : R;
  epsilon_min : R;
  epsilon_decay : R;
}.

Definition set_memory (self : DeepQLearningModel) (m : list Transition)
  : DeepQLearningModel :=
  {| state_space_size := state_space_size self;
     action_space_size := action_space_size self;
     gamma := gamma self;
     memory := m;
     max_memory := max_memory self;
     batch_size := batch_size self;
     model := model self;
     training := training self;
     grad := grad self;
     learning_rate := learning_rate self;
     optimizer := optimizer self;
     optimizer_steps := optimizer_steps self;
     epsilon := epsilon self;
     epsilon_min := epsilon_min self;
     epsilon_decay := epsilon_decay self |}.

Definition set_epsilon (self : DeepQLearningModel) (e : R) : DeepQLearningModel :=
  {| state_space_size := state_space_size self;
     action_space_size := action_space_size self;
     gamma := gamma self;
     memory := memory self;
     max_memory := max_memory self;
     batch_size := batch_size self;
     model := model self;
     training := training self;
     grad := grad self;
     learning_rate := learning_rate self;
     optimizer := optimizer self;
     optimizer_steps := optimizer_steps self;
     epsilon := e;
     epsilon_min := epsilon_min self;
     epsilon_decay := epsilon_decay self |}.

Definition set_grad (self : DeepQLearningModel) (g : option grads)
  : DeepQLearningModel :=
  {| state_space_size := state_space_size self;
     action_space_size := action_space_size self;
     gamma := gamma self;
     memory := memory self;
     max_memory := max_memory self;
     batch_size := batch_size self;
     model := model self;
     training := training self;
     grad := g;
     learning_rate := learning_rate self;
     optimizer := optimizer self;
     optimizer_steps := optimizer_steps self;
     epsilon := epsilon self;
     epsilon_min := epsilon_min self;
     epsilon_decay := epsilon_decay self |}.

(** The model, its mode, the optimiser and its step count, together. *)
Definition set_model (self : DeepQLearningModel) (net : DeepQNetwork R)
    (mode : bool) (st : adam_state) (n : nat) : DeepQLearningModel :=
  {| state_space_size := state_space_size self;
     action_space_size := action_space_size self;
     gamma := gamma self;
     memory := memory self;
     max_memory := max_memory self;
     batch_size := batch_size self;
     model := net;
     training := mode;
     grad := grad self;
     learning_rate := learning_rate self;
     optimizer := st;
     optimizer_steps := n;
     epsilon := epsilon self;
     epsilon_min := epsilon_min self;
     epsilon_decay := epsilon_decay self |}.

(** [DeepQLearningModel.__init__]. The freshly initialised network [net]
    (of widths [state_space_size], 256, 256, [action_space_size]) and Adam
    state [st] are arguments: the library draws the first at random. *)
Definition init (net : DeepQNetwork R) (st : adam_state)
    (state_space_size : nat) (action_space_size : Z)
    (learning_rate gamma : R) (max_memory batch_size : nat)
    (epsilon_start epsilon_end epsilon_decay : R) : DeepQLearningModel :=
  {| state_space_size := state_space_size;
     action_space_size := action_space_size;
     gamma := gamma;
     memory := [];
     max_memory := max_memory;
     batch_size := batch_size;
     model := net;
     training := true;
     grad := None;
     learning_rate := learning_rate;
     optimizer := st;
     optimizer_steps := 0;
     epsilon := epsilon_start;
     epsilon_min := epsilon_end;
     epsilon_decay := epsilon_decay |}.

(** The default arguments of [__init__]. *)
Definition default_learning_rate : R := truediv 1 1000.
Definition default_gamma : R := truediv 99 100.
Definition default_max_memory : nat := Z.to_nat 100000.
Definition default_batch_size : nat := 1000.
Definition default_epsilon_start : R := rone.
Definition default_epsilon_end : R := truediv 1 100.
Definition default_epsilon_decay : R := truediv 995 1000.

Definition decay_epsilon (self : DeepQLearningModel) : DeepQLearningModel :=
  set_epsilon self
    (pymax (rmul (epsilon self) (epsilon_decay self)) (epsilon_min self)).

(** [choose_action(state, epsilon)]; [None] is the default argument. The
    result comes with the state of the random generator after the call. *)
Definition choose_action (self : DeepQLearningModel) (state : list (number R))
    (epsilon_arg : option R) (g : rng) : result Z * rng :=
  let epsilon :=
    match epsilon_arg with
    | None => epsilon self
    | Some e => e
    end in
  let '(u, g) := random g in
  if rltb u epsilon then
    if decide (0 ≤ action_space_size self - 1)%Z then
      let '(a, g) := randint g 0 (action_space_size self - 1) in (Ok a, g)
    else (Raise ValueError, g)
  else
    let state_tensor := tensor state in
    (q_values ← forward (model self) state_tensor;
     a ← argmax q_values;
     Ok (Z.of_nat a), g).

(** [deque.append] on a deque of maximal length [maxlen]: the item goes to
    the right end and, when the deque is then too long, the leftmost item
    is dropped. *)
Definition deque_append {A : Type} (maxlen : nat) (d : list A) (x : A) : list A :=
  let d' := d ++ [x] in
  if decide (maxlen < length d') then drop 1 d' else d'.

Definition remember (self : DeepQLearningModel) (state : list (number R))
    (action : nat) (reward : number R) (next_state : list (number R))
    (done : bool) : DeepQLearningModel :=
  set_memory self
    (deque_append (max_memory self) (memory self)
       {| t_state := state; t_action := action; t_reward := reward;
          t_next_state := next_state; t_done := done |}).

(** A sequence of [remember] calls, one per transition of [ts]. *)
Definition remember_all (self : DeepQLearningModel) (ts : list Transition)
  : DeepQLearningModel :=
  fold_left
    (λ self t,
       remember self (t_state t) (t_action t) (t_reward t) (t_next_state t) (t_done t))
    ts self.

(** A transition the network [net] can be trained on: states of its input
    width and an action that indexes its output. *)
Definition valid_transition (net : DeepQNetwork R) (t : Transition) : Prop :=
  length (t_state t) = in_features (linear1 net)
  ∧ length (t_next_state t) = in_features (linear1 net)
  ∧ t_action t < out_features (linear3 net).

(** [optimizer.zero_grad()] *)
Definition zero_grad (self : DeepQLearningModel) : DeepQLearningModel :=
  set_grad self None.

(** [loss.backward()]: the gradient of [loss], as a function of the
    parameters, is stored in [.grad], added to what is there. *)
Definition backward (loss : DeepQNetwork R → R) (self : DeepQLearningModel)
  : DeepQLearningModel :=
  let g := autograd loss (model self) in
  set_grad self
    (Some match grad self with
          | None => g
          | Some g0 => gadd g0 g
          end).

(** [optimizer.step()] *)
Definition optimizer_step (self : DeepQLearningModel) : DeepQLearningModel :=
  match grad self with
  | None =>
      set_model self (model self) (training self) (optimizer self)
        (S (optimizer_steps self))
  | Some g =>
      let '(st, net) :=
        adam_step (learning_rate self) (optimizer self) (model self) g in
      set_model self net (training self) st (S (optimizer_steps self))
  end.

(** The value of a tracked forward pass at parameters [net]. *)
Definition q_of (net : DeepQNetwork R) (x : list R) : list R :=
  match forward net x with
  | Ok q => q
  | Raise _ => []
  end.

(** The loss of [train_short_memory] as a function of the parameters:
    [target] is a clone of the tracked [q_values] whose entry [action] is
    the constant [y]. *)
Definition short_loss (state : list R) (action : nat) (y : R)
    (net : DeepQNetwork R) : R :=
  let q_values := q_of net state in
  mse q_values (<[action := y]> q_values).

Definition train_short_memory (self : DeepQLearningModel)
    (state : list (number R)) (action : nat) (reward : number R)
    (next_state : list (number R)) (done : bool) : result DeepQLearningModel :=
  let state := tensor state in
  let next_state := tensor next_state in
  let reward := to_float reward in
  q_values ← forward (model self) state;
  next_q_values ← forward (model self) next_state;
  y ← (if done then Ok reward
       else m ← tensor_max next_q_values;
            Ok (radd reward (rmul (gamma self) m)));
  _ ← setitem q_values action y;
  let self := zero_grad self in
  let self := backward (short_loss state action y) self in
  Ok (optimizer_step self).

(** [1.0] for [True] and [0.0] for [False] *)
Definition float_of_bool (b : bool) : R := if b then rone else rzero.

(** The predictions of [train_long_memory] at parameters [net]. *)
Definition batch_q (net : DeepQNetwork R) (states : list (list R))
    (actions : list nat) : result (list R) :=
  q_values ← traverse (forward net) states;
  gather q_values actions.

(** The loss of [train_long_memory] as a function of the parameters:
    [target] is a constant. *)
Definition long_loss (states : list (list R)) (actions : list nat)
    (target : list R) (net : DeepQNetwork R) : R :=
  match batch_q net states actions with
  | Ok q_values => mse q_values target
  | Raise _ => mse [] target
  end.

(** [rewards + self.gamma * max_next_q_values * (~dones)] *)
Definition long_target (gamma : R) (rewards max_next_q_values : list R)
    (dones : list bool) : list R :=
  zip_with (λ r md, radd r (rmul (rmul gamma md.1) (float_of_bool (negb md.2))))
    rewards (zip max_next_q_values dones).

(** [torch.tensor(rows)] needs rows of one length. *)
Definition rectangular {A : Type} (rows : list (list A)) : bool :=
  match rows with
  | [] => true
  | r :: rows' => forallb (λ r', bool_decide (length r' = length r)) rows'
  end.

(** The body of [train_long_memory] below the sampling. *)
Definition train_on_batch (self : DeepQLearningModel)
    (mini_batch : list Transition) : result DeepQLearningModel :=
  match mini_batch with
  | [] => Raise ValueError
  | _ :: _ =>
      let states := map (λ t, tensor (t_state t)) mini_batch in
      let next_states := map (λ t, tensor (t_next_state t)) mini_batch in
      let actions := map t_action mini_batch in
      let rewards := map (λ t, to_float (t_reward t)) mini_batch in
      let dones := map t_done mini_batch in
      if negb (rectangular states && rectangular next_states)
      then Raise ValueError
      else
        q_values ← batch_q (model self) states actions;
        next_q_values ← traverse (forward (model self)) next_states;
        max_next_q_values ← traverse tensor_max next_q_values;
        let target := long_target (gamma self) rewards max_next_q_values dones in
        let self := backward (long_loss states actions target) self in
        Ok (optimizer_step self)
  end.

Definition train_long_memory (self : DeepQLearningModel) (g : rng)
  : result DeepQLearningModel * rng :=
  if decide (length (memory self) < batch_size self) then (Ok self, g)
  else
    let '(positions, g) := sample g (length (memory self)) (batch_size self) in
    let mini_batch := omap (λ i, memory self !! i) positions in
    (train_on_batch self mini_batch, g).

(** [save_model(filename)] on a file system [fs], a map from the paths
    that exist to what is there: the directories a path runs through are not
    part of it. The file writer of the library raises [RuntimeError] on a
    path it cannot open, as it is for a directory. *)
Definition save_model (self : DeepQLearningModel) (fs : gmap string (node blob))
    (filename : string) : result (gmap string (node blob)) :=
  match fs !! filename with
  | Some Dir => Raise RuntimeError
  | _ => Ok (<[filename := File (torch_save (model self))]> fs)
  end.

(** [load_model(filename)] on a file system [fs]: the agent after the call
    and the lines printed. *)
Definition load_model (self : DeepQLearningModel) (fs : gmap string (node blob))
    (filename : string) : result (DeepQLearningModel * list string) :=
  match fs !! filename with
  | Some n =>
      sd ← match n with
           | File b => torch_load b
           | Dir => Raise OSError
           end;
      net ← load_state_dict (model self) sd;
      Ok (set_model self net false (optimizer self) (optimizer_steps self),
          ["Model loaded successfully."])
  | None => Ok (self, ["No saved model found. Starting fresh."])
  end.

(** The fields that [__init__] sets and no method assigns. *)
Definition same_hyperparameters (a b : DeepQLearningModel) : Prop :=
  state_space_size b = state_space_size a
  ∧ action_space_size b = action_space_size a
  ∧ gamma b = gamma a
  ∧ max_memory b = max_memory a
  ∧ batch_size b = batch_size a
  ∧ learning_rate b = learning_rate a
  ∧ epsilon_min b = epsilon_min a
  ∧ epsilon_decay b = epsilon_decay a.

(** One returning call of a method that assigns to the agent, relating the
    agent before the call to the agent after it. The other methods
    ([choose_action], [save_model], [get_state], [get_reward]) assign to no
    field. *)
Inductive agent_step (self : DeepQLearningModel) : DeepQLearningModel → Prop :=
  | step_decay_epsilon :
      agent_step self (decay_epsilon self)
  | step_remember state action reward next_state done :
      agent_step self (remember self state action reward next_state done)
  | step_train_short_memory state action reward next_state done self' :
      train_short_memory self state action reward next_state done = Ok self' →
      agent_step self self'
  | step_train_long_memory g self' g' :
      train_long_memory self g = (Ok self', g') →
      agent_step self self'
  | step_load_model fs filename self' out :
      load_model self fs filename = Ok (self', out) →
      agent_step self self'.

End Agent.

(** ** Exact arithmetic: an instance of the interfaces

    The rational numbers in lowest terms form a [Scalar]; a one-number
    gradient and a counter make a [Backend] and a [Random] small enough to run
    the agent on concrete inputs. *)

Definition Qc_leb (x y : Qc) : bool := Qle_bool x y.

Lemma Qc_leb_le (x y : Qc) : Qc_leb x y = true ↔ (x ≤ y)%Qc.
Proof. unfold Qc_leb, Qcle. apply Qle_bool_iff. Qed.

Lemma Qc_leb_total (x y : Qc) : Qc_leb x y = true ∨ Qc_leb y x = true.
Proof.
  rewrite !Qc_leb_le.
  destruct (Qclt_le_dec x y) as [Hlt | Hle]; [left | right]; [|done].
  by apply Qclt_le_weak.
Qed.

Lemma Qc_leb_trans (x y z : Qc) :
  Qc_leb x y = true → Qc_leb y z = true → Qc_leb x z = true.
Proof. rewrite !Qc_leb_le. apply Qcle_trans. Qed.

Lemma Qc_mul_le_self (e d : Qc) :
  Qc_leb (Q2Qc 0) e = true → Qc_leb d (Q2Qc 1) = true → Qc_leb (e * d)%Qc e = true.
Proof.
  rewrite !Qc_leb_le. intros He Hd.
  rewrite <- (Qcmult_1_r e) at 2.
  rewrite (Qcmult_comm e d), (Qcmult_comm e 1).
  by apply Qcmult_le_compat_r.
Qed.

#[global] Instance Qc_scalar : Scalar Qc := {|
  rzero := Q2Qc 0;
  rone := Q2Qc 1;
  radd := Qcplus;
  rsub := Qcminus;
  rmul := Qcmult;
  rdiv := Qcdiv;
  rleb := Qc_leb;
  of_Z z := Q2Qc (inject_Z z);
  truediv a b := Qcdiv (Q2Qc (inject_Z a)) (Q2Qc (inject_Z b));
  rleb_total := Qc_leb_total;
  rleb_trans := Qc_leb_trans;
  radd_0_r := Qcplus_0_r;
  rmul_0_r := Qcmult_0_r;
  rmul_1_r := Qcmult_1_r;
  rmul_le_self := Qc_mul_le_self;
|}.

(** Adds [d] to every bias of the output layer. *)
Definition shift_output (d : Qc) (net : DeepQNetwork Qc) : DeepQNetwork Qc :=
  {| linear1 := linear1 net;
     linear2 := linear2 net;
     linear3 :=
       {| in_features := in_features (linear3 net);
          out_features := out_features (linear3 net);
          weight := weight (linear3 net);
          bias := map (Qcplus d) (bias (linear3 net)) |} |}.

(** A backend with a one-number gradient, the value of the loss, and a
    descent step along it; a saved model is the model. *)
#[global] Instance toy_backend : Backend Qc := {|
  grads := Qc;
  gadd := Qcplus;
  autograd loss net := loss net;
  adam_state := nat;
  adam_step lr st net g := (S st, shift_output (- (lr * g))%Qc net);
  blob := DeepQNetwork Qc;
  torch_save net := net;
  torch_load b := Ok b;
|}.

Lemma toy_random_range (g : nat) :
  rleb rzero (Q2Qc (1 # 2)) = true ∧ rltb (Q2Qc (1 # 2)) rone = true.
Proof. by vm_compute. Qed.

Lemma toy_randint_range (g : nat) (a b : Z) : (a ≤ b)%Z → (a ≤ a ≤ b)%Z.
Proof. lia. Qed.

Lemma toy_sample_spec (g n k : nat) :
  k ≤ n → length (seq 0 k) = k ∧ NoDup (seq 0 k) ∧ Forall (λ i, i < n) (seq 0 k).
Proof.
  intros Hk. split; [apply length_seq|]. split; [apply NoDup_seq|].
  apply Forall_seq. intros j Hj. lia.
Qed.

(** A generator that counts its calls: it always draws one half, the least
    integer of a range and the first positions of a population. *)
#[global] Instance toy_random : Random Qc := {|
  rng := nat;
  random g := (Q2Qc (1 # 2), S g);
  randint g a b := (a, S g);
  sample g n k := (seq 0 k, S g);
  random_range := toy_random_range;
  randint_range := toy_randint_range;
  sample_spec := toy_sample_spec;
|}.

(** ** Example inputs *)

(** A board of ten by ten cells. *)
Definition example_board : Board :=
  {| width := 10;
     height := 10;
     is_within_bounds p :=
       (0 <=? p.1)%Z && (p.1 <? 10)%Z && (0 <=? p.2)%Z && (p.2 <? 10)%Z |}.

Definition example_food : Food := {| position := (5, 5)%Z |}.

(** A snake of three segments heading up from [head] to [next]. *)
Definition example_snake (head next : Z * Z) : Snake :=
  {| head_position := head;
     direction := "UP";
     body := [head; (head.1, head.2 + 1)%Z; (head.1 + 1, head.2 + 1)%Z];
     get_next_head_position := next;
     has_collision := false |}.

(** A network of widths 14, 1, 1 and 2. *)
Definition example_net : DeepQNetwork Qc :=
  {| linear1 :=
       {| in_features := 14; out_features := 1;
          weight := [replicate 14 (Q2Qc (1 # 10))]; bias := [Q2Qc 0] |};
     linear2 :=
       {| in_features := 1; out_features := 1;
          weight := [[Q2Qc 1]]; bias := [Q2Qc 0] |};
     linear3 :=
       {| in_features := 1; out_features := 2;
          weight := [[Q2Qc 1]; [Q2Qc (-1)]]; bias := [Q2Qc 0; Q2Qc (1 # 2)] |} |}.

(** The state vector of a game position; empty if [get_state] raises. *)
Definition example_state (head next : Z * Z) : list (number Qc) :=
  match get_state (example_snake head next) example_food example_board with
  | Ok v => v
  | Raise _ => []
  end.

(** A new agent on [example_net] with the default learning rate, discount
    and final exploration rate. *)
Definition example_agent (max_memory batch_size : nat) (epsilon_start epsilon_decay : Qc)
  : DeepQLearningModel :=
  init example_net 0%nat 14 2 default_learning_rate default_gamma
    max_memory batch_size epsilon_start default_epsilon_end epsilon_decay.

(** The move from (5, 7) to (5, 6), rewarded by [reward]. *)
Definition example_transition (reward : Z) (done : bool) : Transition :=
  {| t_state := example_state (5, 7)%Z (5, 6)%Z;
     t_action := 1;
     t_reward := Int reward;
     t_next_state := example_state (5, 6)%Z (5, 5)%Z;
     t_done := done |}.

(** The first output bias of the network after [train_long_memory]. *)
Definition bias_after_long (self : DeepQLearningModel) : option Qc :=
  match (train_long_memory self 0%nat).1 with
  | Ok self' => bias (linear3 (model self')) !! 0
  | Raise _ => None
  end.

(** * Properties *)

(** ** The reward function *)

Example get_reward_eats : get_reward (example_snake (5, 6)%Z (5, 5)%Z) example_food example_board = 10%Z.
Proof. reflexivity. Qed.

Example get_reward_closer : get_reward (example_snake (5, 7)%Z (5, 6)%Z) example_food example_board = 1%Z.
Proof. reflexivity. Qed.

Example get_reward_farther : get_reward (example_snake (5, 6)%Z (5, 7)%Z) example_food example_board = (-1)%Z.
Proof. reflexivity. Qed.

Example get_reward_tie : get_reward (example_snake (5, 6)%Z (6, 5)%Z) example_food example_board = (-1)%Z.
Proof. reflexivity. Qed.

Example get_reward_out_of_bounds : get_reward (example_snake (5, 0)%Z (5, -1)%Z) example_food example_board = (-10)%Z.
Proof. reflexivity. Qed.

(** C1. [get_reward] decides on the proposed next head position by four
    exclusive checks in a fixed order: -10 when that position is out of
    bounds or the snake collides with itself; otherwise +10 when it is the
    food position; otherwise +1 when the Manhattan distance to the food
    strictly decreases; otherwise -1, ties included. *)
Theorem get_reward_cases (snake : Snake) (food : Food) (board : Board) :
  let next := get_next_head_position snake in
  let before := manhattan (head_position snake) (position food) in
  let after := manhattan next (position food) in
  let r := get_reward snake food board in
  (is_within_bounds board next = false ∨ has_collision snake = true ↔ r = (-10)%Z)
  ∧ (is_within_bounds board next = true ∧ has_collision snake = false
     ∧ next = position food ↔ r = 10%Z)
  ∧ (is_within_bounds board next = true ∧ has_collision snake = false
     ∧ next ≠ position food ∧ (after < before)%Z ↔ r = 1%Z)
  ∧ (is_within_bounds board next = true ∧ has_collision snake = false
     ∧ next ≠ position food ∧ (before ≤ after)%Z ↔ r = (-1)%Z).
Proof.
  unfold get_reward, manhattan.
  destruct snake as [[hx hy] d b [nx ny] col], food as [[fx fy]]; simpl.
  destruct (is_within_bounds board (nx, ny)), col; simpl;
    try (repeat split; intros; intuition (congruence || lia)).
  destruct (Z.eqb_spec nx fx) as [-> | Hx]; simpl.
  - destruct (Z.eqb_spec ny fy) as [-> | Hy].
    + repeat split; intros; intuition (congruence || lia).
    + destruct (Z.ltb_spec (Z.abs (fx - fx) + Z.abs (ny - fy))
                  (Z.abs (hx - fx) + Z.abs (hy - fy)));
        repeat split; intros; intuition (congruence || lia).
  - destruct (Z.ltb_spec (Z.abs (nx - fx) + Z.abs (ny - fy))
                (Z.abs (hx - fx) + Z.abs (hy - fy)));
      repeat split; intros; intuition (congruence || lia).
Qed.

(** ** The feature extractor *)

Lemma body_step_up (hx hy : Z) (fl : body_flags) (seg : Z * Z) :
  body_up (body_step hx hy fl seg)
  = if (seg.1 =? hx)%Z && (seg.2 <? hy)%Z then 1%Z else body_up fl.
Proof.
  unfold body_step.
  destruct (Z.eqb_spec seg.1 hx), (Z.ltb_spec seg.2 hy), (Z.eqb_spec seg.2 hy),
    (Z.ltb_spec seg.1 hx), (Z.gtb_spec seg.2 hy), (Z.gtb_spec seg.1 hx);
    simpl; reflexivity || lia.
Qed.

Lemma body_step_down (hx hy : Z) (fl : body_flags) (seg : Z * Z) :
  body_down (body_step hx hy fl seg)
  = if (seg.1 =? hx)%Z && (seg.2 >? hy)%Z then 1%Z else body_down fl.
Proof.
  unfold body_step.
  destruct (Z.eqb_spec seg.1 hx), (Z.ltb_spec seg.2 hy), (Z.eqb_spec seg.2 hy),
    (Z.ltb_spec seg.1 hx), (Z.gtb_spec seg.2 hy), (Z.gtb_spec seg.1 hx);
    simpl; reflexivity || lia.
Qed.

Lemma body_step_left (hx hy : Z) (fl : body_flags) (seg : Z * Z) :
  body_left (body_step hx hy fl seg)
  = if (seg.2 =? hy)%Z && (seg.1 <? hx)%Z then 1%Z else body_left fl.
Proof.
  unfold body_step.
  destruct (Z.eqb_spec seg.1 hx), (Z.ltb_spec seg.2 hy), (Z.eqb_spec seg.2 hy),
    (Z.ltb_spec seg.1 hx), (Z.gtb_spec seg.2 hy), (Z.gtb_spec seg.1 hx);
    simpl; reflexivity || lia.
Qed.

Lemma body_step_right (hx hy : Z) (fl : body_flags) (seg : Z * Z) :
  body_right (body_step hx hy fl seg)
  = if (seg.2 =? hy)%Z && (seg.1 >? hx)%Z then 1%Z else body_right fl.
Proof.
  unfold body_step.
  destruct (Z.eqb_spec seg.1 hx), (Z.ltb_spec seg.2 hy), (Z.eqb_spec seg.2 hy),
    (Z.ltb_spec seg.1 hx), (Z.gtb_spec seg.2 hy), (Z.gtb_spec seg.1 hx);
    simpl; reflexivity || lia.
Qed.

(** A flag that a step sets to one on the segments satisfying [c], and
    leaves alone on the others, is one after the loop exactly when it was one
    before or some segment satisfies [c]. *)
Lemma flag_fold (step : body_flags → Z * Z → body_flags) (f : body_flags → Z)
    (c : Z * Z → bool) :
  (∀ fl seg, f (step fl seg) = if c seg then 1%Z else f fl) →
  ∀ segments fl,
    f (fold_left step segments fl) = if existsb c segments then 1%Z else f fl.
Proof.
  intros Hstep segments. induction segments as [|seg segments IH]; intros fl; simpl.
  - reflexivity.
  - rewrite IH, Hstep. by destruct (c seg), (existsb c segments).
Qed.

Lemma flag_scan (f : body_flags → Z) (c : Z * Z → bool) (P : Z * Z → Prop)
    (hx hy : Z) (segments : list (Z * Z)) :
  (∀ fl seg, f (body_step hx hy fl seg) = if c seg then 1%Z else f fl) →
  f {| body_up := 0; body_down := 0; body_left := 0; body_right := 0 |} = 0%Z →
  (∀ seg, c seg = true ↔ P seg) →
  (f (body_scan hx hy segments) = 0%Z ∨ f (body_scan hx hy segments) = 1%Z)
  ∧ (f (body_scan hx hy segments) = 1%Z ↔ ∃ seg, seg ∈ segments ∧ P seg).
Proof.
  intros Hstep H0 HP. unfold body_scan.
  rewrite (flag_fold _ f c Hstep), H0.
  destruct (existsb c segments) eqn:He.
  - split; [by right|]. split; [intros _|done].
    apply existsb_exists in He as (seg & Hin & Hc).
    exists seg. split; [by apply list_elem_of_In | by apply HP].
  - split; [by left|]. split; [done|]. intros (seg & Hin & Hp).
    assert (existsb c segments = true) as Habs; [|congruence].
    apply existsb_exists. exists seg. split; [by apply list_elem_of_In | by apply HP].
Qed.

(** A segment off the row and the column of the head, or on the head, changes
    no flag. *)
Lemma body_step_skip (hx hy : Z) (fl : body_flags) (seg : Z * Z) :
  (seg.1 ≠ hx ∧ seg.2 ≠ hy) ∨ seg = (hx, hy) → body_step hx hy fl seg = fl.
Proof.
  intros Hseg. unfold body_step.
  destruct (Z.eqb_spec seg.1 hx), (Z.ltb_spec seg.2 hy), (Z.eqb_spec seg.2 hy),
    (Z.ltb_spec seg.1 hx), (Z.gtb_spec seg.2 hy), (Z.gtb_spec seg.1 hx);
    simpl; try reflexivity; destruct Hseg as [[? ?] | ->]; simpl in *; lia.
Qed.

Lemma body_scan_skip (hx hy : Z) (l1 l2 : list (Z * Z)) (seg : Z * Z) :
  (seg.1 ≠ hx ∧ seg.2 ≠ hy) ∨ seg = (hx, hy) →
  body_scan hx hy (l1 ++ seg :: l2) = body_scan hx hy (l1 ++ l2).
Proof.
  intros Hseg. unfold body_scan. rewrite !fold_left_app. simpl.
  by rewrite body_step_skip.
Qed.

Section FeatureProperties.
Context {R : Type} `{!Scalar R}.

Lemma pydiv_ok (a b : Z) : b ≠ 0%Z → pydiv a b = Ok (truediv a b : R).
Proof. intros Hb. unfold pydiv. by destruct (Z.eqb_spec b 0). Qed.

(** On a board of non-zero width and height [get_state] returns this
    vector. *)
Lemma get_state_ok (snake : Snake) (food : Food) (board : Board) :
  width board ≠ 0%Z → height board ≠ 0%Z →
  get_state snake food board
  = Ok [ Float (truediv ((position food).1 - (head_position snake).1) (width board) : R);
         Float (truediv ((position food).2 - (head_position snake).2) (height board));
         Int (int_of_bool (String.eqb (direction snake) "UP"));
         Int (int_of_bool (String.eqb (direction snake) "DOWN"));
         Int (int_of_bool (String.eqb (direction snake) "LEFT"));
         Int (int_of_bool (String.eqb (direction snake) "RIGHT"));
         Float (truediv (head_position snake).2 (height board));
         Float (truediv (height board - (head_position snake).2) (height board));
         Float (truediv (head_position snake).1 (width board));
         Float (truediv (width board - (head_position snake).1) (width board));
         Int (body_up (body_scan (head_position snake).1 (head_position snake).2 (body snake)));
         Int (body_down (body_scan (head_position snake).1 (head_position snake).2 (body snake)));
         Int (body_left (body_scan (head_position snake).1 (head_position snake).2 (body snake)));
         Int (body_right (body_scan (head_position snake).1 (head_position snake).2 (body snake))) ].
Proof.
  intros Hw Hh. unfold get_state.
  destruct (head_position snake) as [hx hy], (position food) as [fx fy]; simpl.
  by rewrite !pydiv_ok.
Qed.

(** Without a width or a height the first division raises. *)
Lemma get_state_zero_division (snake : Snake) (food : Food) (board : Board) :
  width board = 0%Z ∨ height board = 0%Z →
  get_state snake food board = (Raise ZeroDivisionError : result (list (number R))).
Proof.
  intros Hz. unfold get_state, pydiv.
  destruct (head_position snake) as [hx hy], (position food) as [fx fy]; simpl.
  destruct (Z.eqb_spec (width board) 0), (Z.eqb_spec (height board) 0);
    simpl; try reflexivity. lia.
Qed.

Lemma int_of_eqb (s t : string) : int_of_bool (String.eqb s t) = indicator (s = t).
Proof. unfold indicator. by destruct (String.eqb_spec s t), (decide (s = t)). Qed.

(** C2. On a board of non-zero width and height [get_state] returns a list
    of exactly 14 numbers in the fixed order: relative food x and y, the
    four direction indicators (up, down, left, right), the four wall
    distances (up, down, left, right), the four body flags (up, down, left,
    right), each entry fixed by its value: entry 10 is 1 exactly when a
    segment is above the head in its column, entry 11 when one is below,
    entry 12 when one is left of the head in its row, entry 13 when one is
    right. The list is a function of what the call reads of its arguments:
    calls that read the same values return the same list. *)
Theorem get_state_vector (snake snake' : Snake) (food : Food) (board board' : Board) :
  width board ≠ 0%Z → height board ≠ 0%Z →
  let hx := (head_position snake).1 in
  let hy := (head_position snake).2 in
  let fx := (position food).1 in
  let fy := (position food).2 in
  ∃ (v : list (number R)) (up down left right : Z),
    get_state snake food board = Ok v
    ∧ length v = 14
    ∧ v !! 0 = Some (Float (truediv (fx - hx) (width board)))
    ∧ v !! 1 = Some (Float (truediv (fy - hy) (height board)))
    ∧ v !! 2 = Some (Int (indicator (direction snake = "UP")))
    ∧ v !! 3 = Some (Int (indicator (direction snake = "DOWN")))
    ∧ v !! 4 = Some (Int (indicator (direction snake = "LEFT")))
    ∧ v !! 5 = Some (Int (indicator (direction snake = "RIGHT")))
    ∧ v !! 6 = Some (Float (truediv hy (height board)))
    ∧ v !! 7 = Some (Float (truediv (height board - hy) (height board)))
    ∧ v !! 8 = Some (Float (truediv hx (width board)))
    ∧ v !! 9 = Some (Float (truediv (width board - hx) (width board)))
    ∧ v !! 10 = Some (Int up) ∧ (up = 0 ∨ up = 1)%Z
    ∧ v !! 11 = Some (Int down) ∧ (down = 0 ∨ down = 1)%Z
    ∧ v !! 12 = Some (Int left) ∧ (left = 0 ∨ left = 1)%Z
    ∧ v !! 13 = Some (Int right) ∧ (right = 0 ∨ right = 1)%Z
    ∧ (up = 1%Z ↔ ∃ seg, seg ∈ body snake ∧ seg.1 = hx ∧ (seg.2 < hy)%Z)
    ∧ (down = 1%Z ↔ ∃ seg, seg ∈ body snake ∧ seg.1 = hx ∧ (seg.2 > hy)%Z)
    ∧ (left = 1%Z ↔ ∃ seg, seg ∈ body snake ∧ seg.2 = hy ∧ (seg.1 < hx)%Z)
    ∧ (right = 1%Z ↔ ∃ seg, seg ∈ body snake ∧ seg.2 = hy ∧ (seg.1 > hx)%Z)
    ∧ (head_position snake' = head_position snake
       → direction snake' = direction snake
       → body snake' = body snake
       → width board' = width board
       → height board' = height board
       → get_state snake' food board' = Ok v).
Proof.
  intros Hw Hh hx hy fx fy.
  pose proof (flag_scan body_up _ (λ seg, seg.1 = hx ∧ (seg.2 < hy)%Z)
                hx hy (body snake) (body_step_up hx hy) eq_refl) as Hup.
  pose proof (flag_scan body_down _ (λ seg, seg.1 = hx ∧ (seg.2 > hy)%Z)
                hx hy (body snake) (body_step_down hx hy) eq_refl) as Hdown.
  pose proof (flag_scan body_left _ (λ seg, seg.2 = hy ∧ (seg.1 < hx)%Z)
                hx hy (body snake) (body_step_left hx hy) eq_refl) as Hleft.
  pose proof (flag_scan body_right _ (λ seg, seg.2 = hy ∧ (seg.1 > hx)%Z)
                hx hy (body snake) (body_step_right hx hy) eq_refl) as Hright.
  destruct Hup as [Hup Hup'], Hdown as [Hdown Hdown'], Hleft as [Hleft Hleft'],
    Hright as [Hright Hright'];
    try (intros seg; rewrite andb_true_iff, Z.eqb_eq,
           ?Z.ltb_lt, ?Z.gtb_gt; reflexivity).
  do 5 eexists. split; [by apply get_state_ok|].
  rewrite !int_of_eqb.
  repeat (split; [reflexivity || assumption|]).
  intros Hhead Hdir Hbody Hw' Hh'.
  rewrite get_state_ok by congruence.
  by rewrite Hhead, Hdir, Hbody, Hw', Hh', !int_of_eqb.
Qed.

(** C10. In the vector of [get_state] each body flag is 1 exactly when
    some body segment lies in the column or row of the head on that side, at
    any distance: up for a segment with the x of the head and a strictly
    smaller y, down for a strictly larger y, left for a segment with the y of
    the head and a strictly smaller x, right for a strictly larger x. A
    segment off both the row and the column of the head (a diagonal
    neighbour, for one) and a segment at the position of the head change no
    entry of the vector. *)
Theorem get_state_body_flags (snake : Snake) (food : Food) (board : Board) :
  width board ≠ 0%Z → height board ≠ 0%Z →
  let hx := (head_position snake).1 in
  let hy := (head_position snake).2 in
  ∃ (v : list (number R)) (up down left right : Z),
    get_state snake food board = Ok v
    ∧ v !! 10 = Some (Int up) ∧ v !! 11 = Some (Int down)
    ∧ v !! 12 = Some (Int left) ∧ v !! 13 = Some (Int right)
    ∧ (up = 0 ∨ up = 1)%Z ∧ (down = 0 ∨ down = 1)%Z
    ∧ (left = 0 ∨ left = 1)%Z ∧ (right = 0 ∨ right = 1)%Z
    ∧ (up = 1%Z ↔ ∃ seg, seg ∈ body snake ∧ seg.1 = hx ∧ (seg.2 < hy)%Z)
    ∧ (down = 1%Z ↔ ∃ seg, seg ∈ body snake ∧ seg.1 = hx ∧ (seg.2 > hy)%Z)
    ∧ (left = 1%Z ↔ ∃ seg, seg ∈ body snake ∧ seg.2 = hy ∧ (seg.1 < hx)%Z)
    ∧ (right = 1%Z ↔ ∃ seg, seg ∈ body snake ∧ seg.2 = hy ∧ (seg.1 > hx)%Z)
    ∧ (∀ l1 l2 seg,
         body snake = l1 ++ seg :: l2 →
         (seg.1 ≠ hx ∧ seg.2 ≠ hy) ∨ seg = (hx, hy) →
         get_state (set_body snake (l1 ++ l2)) food board = Ok v).
Proof.
  intros Hw Hh hx hy.
  pose proof (flag_scan body_up _ (λ seg, seg.1 = hx ∧ (seg.2 < hy)%Z)
                hx hy (body snake) (body_step_up hx hy) eq_refl) as Hup.
  pose proof (flag_scan body_down _ (λ seg, seg.1 = hx ∧ (seg.2 > hy)%Z)
                hx hy (body snake) (body_step_down hx hy) eq_refl) as Hdown.
  pose proof (flag_scan body_left _ (λ seg, seg.2 = hy ∧ (seg.1 < hx)%Z)
                hx hy (body snake) (body_step_left hx hy) eq_refl) as Hleft.
  pose proof (flag_scan body_right _ (λ seg, seg.2 = hy ∧ (seg.1 > hx)%Z)
                hx hy (body snake) (body_step_right hx hy) eq_refl) as Hright.
  destruct Hup as [Hup1 Hup2], Hdown as [Hd1 Hd2], Hleft as [Hl1 Hl2],
    Hright as [Hr1 Hr2];
    try (intros seg; rewrite andb_true_iff, Z.eqb_eq,
           ?Z.ltb_lt, ?Z.gtb_gt; reflexivity).
  do 5 eexists. split; [by apply get_state_ok|].
  repeat (split; [reflexivity || assumption|]).
  intros l1 l2 seg Hbody Hseg.
  rewrite get_state_ok by done. simpl.
  fold hx hy. by rewrite Hbody, (body_scan_skip hx hy l1 l2 seg Hseg).
Qed.

End FeatureProperties.

(** ** The Q-network *)

Lemma bind_Ok {A B : Type} (a : A) (k : A → result B) : (Ok a ≫= k) = k a.
Proof. reflexivity. Qed.

Lemma omap_lookup_ok {A : Type} (l : list A) (positions : list nat) :
  Forall (λ i, i < length l) positions →
  Forall2 (λ i t, l !! i = Some t) positions (omap (λ i, l !! i) positions).
Proof.
  induction 1 as [|i positions Hi _ IH]; [constructor|].
  change (omap (λ i, l !! i) (i :: positions))
    with (match l !! i with
          | Some t => t :: omap (λ i, l !! i) positions
          | None => omap (λ i, l !! i) positions
          end).
  destruct (lookup_lt_is_Some_2 l i Hi) as [t Ht]. rewrite Ht. by constructor.
Qed.

Lemma rectangular_same_length {A : Type} (rows : list (list A)) (n : nat) :
  Forall (λ r, length r = n) rows → rectangular rows = true.
Proof.
  destruct 1 as [|r rows Hr Hrows]; simpl; [done|].
  apply forallb_forall. intros r' Hin. apply bool_decide_eq_true.
  rewrite Forall_forall in Hrows. rewrite Hr. apply Hrows. by apply list_elem_of_In.
Qed.

Section NetworkProperties.
Context {R : Type} `{!Scalar R}.

Lemma rleb_refl (x : R) : rleb x x = true.
Proof. by destruct (rleb_total x x). Qed.

Lemma rltb_le (x y : R) : rltb x y = true → rleb x y = true.
Proof.
  unfold rltb. intros Hlt. destruct (rleb_total x y) as [Hle | Hle]; [done|].
  by rewrite Hle in Hlt.
Qed.

Lemma rle_lt_trans (x y z : R) : rleb x y = true → rltb y z = true → rltb x z = true.
Proof.
  unfold rltb. intros Hxy Hyz. destruct (rleb z x) eqn:Hzx; [|done].
  by rewrite (rleb_trans z x y Hzx Hxy) in Hyz.
Qed.

Lemma linear_ok (l : Linear R) (x : list R) :
  wf_linear l → length x = in_features l →
  ∃ y, linear l x = Ok y ∧ length y = out_features l.
Proof.
  intros [Hw Hb] Hx. unfold linear. rewrite decide_True by done.
  eexists. split; [done|]. rewrite length_zip_with, length_map. lia.
Qed.

(** A well-shaped network accepts every input row of its input width. *)
Lemma forward_ok (net : DeepQNetwork R) (x : list R) :
  wf_network net → length x = in_features (linear1 net) →
  ∃ q, forward net x = Ok q ∧ length q = out_features (linear3 net).
Proof.
  intros (H1 & H2 & H3 & H12 & H23) Hx. unfold forward.
  destruct (linear_ok _ x H1 Hx) as (y1 & -> & Hy1). simpl.
  destruct (linear_ok (linear2 net) (map relu y1) H2) as (y2 & -> & Hy2);
    [rewrite length_map; lia|]. simpl.
  destruct (linear_ok (linear3 net) (map relu y2) H3) as (y3 & -> & Hy3);
    [rewrite length_map; lia|]. simpl.
  by exists y3.
Qed.

(** The width of the output does not depend on the input. *)
Lemma forward_length (net : DeepQNetwork R) (x q : list R) :
  forward net x = Ok q →
  length q = length (weight (linear3 net)) `min` length (bias (linear3 net)).
Proof.
  unfold forward, linear. intros Hq.
  repeat (case_decide; simpl in Hq; [|done]).
  injection Hq as <-. by rewrite length_zip_with, length_map.
Qed.

Lemma argmax_from_spec (t l : list R) (bi i : nat) (best : R) :
  l !! bi = Some best →
  (∀ j x, l !! j = Some x → rleb x best = true) →
  (∀ j x, j < bi → l !! j = Some x → rltb x best = true) →
  i = length l →
  ∃ m, (l ++ t) !! argmax_from bi best i t = Some m
       ∧ (∀ j x, (l ++ t) !! j = Some x → rleb x m = true)
       ∧ (∀ j x, j < argmax_from bi best i t → (l ++ t) !! j = Some x →
            rltb x m = true).
Proof.
  revert l bi i best. induction t as [|y t IH]; intros l bi i best Hbi Hmax Hfirst ->.
  - simpl. rewrite app_nil_r. eauto.
  - simpl. rewrite (cons_middle y l t), app_assoc.
    destruct (rltb best y) eqn:Hlt.
    + apply IH; [| | |rewrite length_app; simpl; lia].
      * by rewrite lookup_app_r, Nat.sub_diag.
      * intros j x Hj. apply lookup_app_Some in Hj as [Hj | [_ Hj]].
        -- eapply rleb_trans; [by eapply Hmax | by apply rltb_le].
        -- apply list_lookup_singleton_Some in Hj as [_ <-]. apply rleb_refl.
      * intros j x Hlen Hj. rewrite lookup_app_l in Hj by done.
        eapply rle_lt_trans; [by eapply Hmax | done].
    + apply IH; [| | |rewrite length_app; simpl; lia].
      * apply lookup_app_l_Some, Hbi.
      * intros j x Hj. apply lookup_app_Some in Hj as [Hj | [_ Hj]].
        -- by eapply Hmax.
        -- apply list_lookup_singleton_Some in Hj as [_ <-].
           unfold rltb in Hlt. by destruct (rleb y best).
      * intros j x Hlen Hj. apply lookup_lt_Some in Hbi.
        rewrite lookup_app_l in Hj by lia. by eapply Hfirst.
Qed.

(** [argmax] gives the first position of a largest entry. *)
Lemma argmax_spec (t : list R) :
  t ≠ [] →
  ∃ a m, argmax t = Ok a ∧ t !! a = Some m
         ∧ (∀ j x, t !! j = Some x → rleb x m = true)
         ∧ (∀ j x, j < a → t !! j = Some x → rltb x m = true).
Proof.
  destruct t as [|x t]; [done|]. intros _.
  destruct (argmax_from_spec t [x] 0 1 x) as (m & Hm & Hmax & Hfirst);
    [done| | |done|].
  - intros [|j] y Hj; [|done]. injection Hj as <-. apply rleb_refl.
  - intros j y Hj. lia.
  - exists (argmax_from 0 x 1 t), m. by repeat split.
Qed.

Lemma fold_max_spec (t : list R) (x0 : R) :
  fold_left (λ m y, if rltb m y then y else m) t x0 ∈ x0 :: t
  ∧ ∀ x, x ∈ x0 :: t →
      rleb x (fold_left (λ m y, if rltb m y then y else m) t x0) = true.
Proof.
  revert x0. induction t as [|y t IH]; intros x0; simpl.
  - split; [apply list_elem_of_here|].
    intros x ->%list_elem_of_singleton. apply rleb_refl.
  - destruct (rltb x0 y) eqn:Hlt.
    + destruct (IH y) as [Hin Hmax]. split; [by apply list_elem_of_further|].
      intros x [-> | Hx]%elem_of_cons; [|by apply Hmax].
      apply (rleb_trans x0 y); [by apply rltb_le|].
      apply Hmax, list_elem_of_here.
    + destruct (IH x0) as [Hin Hmax]. split.
      * apply elem_of_cons in Hin as [Hin | Hin]; [rewrite Hin; apply list_elem_of_here|].
        by do 2 apply list_elem_of_further.
      * intros x [-> | [-> | Hx]%elem_of_cons]%elem_of_cons.
        -- apply Hmax, list_elem_of_here.
        -- apply (rleb_trans y x0); [|apply Hmax, list_elem_of_here].
           unfold rltb in Hlt. by destruct (rleb y x0).
        -- by apply Hmax, list_elem_of_further.
Qed.

(** [tensor_max] gives an entry that no entry exceeds. *)
Lemma tensor_max_spec (t : list R) :
  t ≠ [] → ∃ m, tensor_max t = Ok m ∧ m ∈ t ∧ ∀ x, x ∈ t → rleb x m = true.
Proof.
  destruct t as [|x t]; [done|]. intros _. eexists. split; [done|].
  apply fold_max_spec.
Qed.

Lemma forward_batch_ok (net : DeepQNetwork R) {T : Type} (f : T → list (number R))
    (Q : T → Prop) (batch : list T) :
  wf_network net →
  Forall (λ t, length (f t) = in_features (linear1 net) ∧ Q t) batch →
  ∃ qs, traverse (forward net) (map (λ t, tensor (f t)) batch) = Ok qs
        ∧ Forall2 (λ t q, (forward net (tensor (f t)) = Ok q ∧ Q t)
                          ∧ length q = out_features (linear3 net)) batch qs.
Proof.
  intros Hwf. induction 1 as [|t batch [Ht HQ] _ (qs & Hqs & Hall)]; simpl.
  - exists []. by split.
  - destruct (forward_ok net (tensor (f t)) Hwf) as (q & Hq & Hlen);
      [by unfold tensor; rewrite length_map|].
    exists (q :: qs). rewrite Hq. simpl. rewrite Hqs. simpl.
    split; [done|]. by constructor.
Qed.

Lemma gather_batch_ok {T : Type} (P : T → list R → Prop) (act : T → nat)
    (batch : list T) (qs : list (list R)) :
  Forall2 (λ t q, P t q ∧ act t < length q) batch qs →
  ∃ p, gather qs (map act batch) = Ok p
       ∧ Forall2 (λ t v, ∃ q, P t q ∧ q !! act t = Some v) batch p.
Proof.
  unfold gather.
  induction 1 as [|t q batch qs [HP Ha] _ (p & Hp & Hall)]; simpl.
  - exists []. by split.
  - destruct (lookup_lt_is_Some_2 q (act t) Ha) as [v Hv].
    exists (v :: p). rewrite Hv. simpl. rewrite Hp. simpl.
    split; [done|]. constructor; [|done]. by exists q.
Qed.

Lemma max_batch_ok {T : Type} (P : T → list R → Prop) (batch : list T)
    (qs : list (list R)) :
  Forall2 (λ t q, P t q ∧ q ≠ []) batch qs →
  ∃ ms, traverse tensor_max qs = Ok ms
        ∧ Forall2 (λ t m, ∃ q, P t q ∧ tensor_max q = Ok m) batch ms.
Proof.
  induction 1 as [|t q batch qs [HP Hq] _ (ms & Hms & Hall)]; simpl.
  - exists []. by split.
  - destruct (tensor_max_spec q Hq) as (m & Hm & _).
    exists (m :: ms). rewrite Hm. simpl. rewrite Hms. simpl.
    split; [done|]. constructor; [|done]. by exists q.
Qed.

Lemma long_target_spec {T : Type} (P : T → R → Prop) (rew : T → R) (fin : T → bool)
    (discount : R) (batch : list T) (ms : list R) :
  Forall2 P batch ms →
  Forall2 (λ t y, ∃ m, P t m
                       ∧ y = radd (rew t)
                               (rmul (rmul discount m) (float_of_bool (negb (fin t)))))
    batch (long_target discount (map rew batch) ms (map fin batch)).
Proof.
  unfold long_target. induction 1 as [|t m batch ms HP _ IH]; simpl.
  - constructor.
  - constructor; [|done]. by exists m.
Qed.

(** What a terminal and a non-terminal transition contribute to the target. *)
Lemma long_target_entry (discount r m : R) (fin : bool) :
  radd r (rmul (rmul discount m) (float_of_bool (negb fin)))
  = if fin then r else radd r (rmul discount m).
Proof.
  destruct fin; simpl.
  - by rewrite rmul_0_r, radd_0_r.
  - by rewrite rmul_1_r.
Qed.

End NetworkProperties.

(** ** The replay memory *)

Lemma deque_append_length {A : Type} (maxlen : nat) (d : list A) (x : A) :
  length d ≤ maxlen → length (deque_append maxlen d x) ≤ maxlen.
Proof.
  intros Hd. unfold deque_append. case_decide as Hlen.
  - rewrite length_drop, length_app. simpl. lia.
  - lia.
Qed.

(** A deque that holds the last [maxlen] items of a history [l] holds the
    last [maxlen] items of [l ++ [x]] after [x] is appended. *)
Lemma deque_append_suffix {A : Type} (maxlen : nat) (l : list A) (x : A) :
  deque_append maxlen (drop (length l - maxlen) l) x
  = drop (length (l ++ [x]) - maxlen) (l ++ [x]).
Proof.
  unfold deque_append.
  rewrite <- (drop_app_le l [x]) by lia.
  rewrite length_drop, !length_app. simpl.
  case_decide as Hlen.
  - rewrite drop_drop. f_equal. lia.
  - f_equal. lia.
Qed.

Lemma deque_fold_suffix {A : Type} (maxlen : nat) (ts l : list A) :
  fold_left (deque_append maxlen) ts (drop (length l - maxlen) l)
  = drop (length (l ++ ts) - maxlen) (l ++ ts).
Proof.
  revert l. induction ts as [|t ts IH]; intros l; simpl.
  - by rewrite app_nil_r.
  - rewrite deque_append_suffix, IH. by rewrite <- app_assoc.
Qed.

Section AgentProperties.
Context {R : Type} `{!Scalar R} `{!Backend R} `{!Random R}.

Lemma remember_all_memory (self : DeepQLearningModel) (ts : list Transition) :
  memory (remember_all self ts)
  = fold_left (deque_append (max_memory self)) ts (memory self)
  ∧ max_memory (remember_all self ts) = max_memory self.
Proof.
  unfold remember_all. revert self.
  induction ts as [|[s a r s' d] ts IH]; intros self; simpl; [done|].
  destruct (IH (remember self s a r s' d)) as [-> ->]. done.
Qed.

(** [remember] never lets the memory grow beyond its capacity. *)
Lemma remember_all_bounded (self : DeepQLearningModel) (ts : list Transition) :
  length (memory self) ≤ max_memory self →
  length (memory (remember_all self ts)) ≤ max_memory self.
Proof.
  destruct (remember_all_memory self ts) as [-> _].
  generalize (memory self) as d. induction ts as [|t ts IH]; intros d Hd; simpl.
  - done.
  - by apply IH, deque_append_length.
Qed.

(** C5, as amended. Starting from the empty memory of a new agent, after
    any sequence of [remember] calls the memory holds at most [max_memory]
    transitions (100000 by default): the last [max_memory] ones of the
    sequence, in order. With a capacity of at least one, after capacity + 1
    insertions the first-inserted entry has been evicted (the memory is
    exactly the later insertions, so a transition different from all of
    them is absent) and the last-inserted one sits at its end. *)
Theorem remember_fifo (net : DeepQNetwork R) (st : adam_state)
    (state_size : nat) (action_size : Z) (lr discount : R) (capacity batch : nat)
    (eps_start eps_end eps_decay : R) (ts : list Transition) :
  let self := init net st state_size action_size lr discount capacity batch
                eps_start eps_end eps_decay in
  let self' := remember_all self ts in
  Z.of_nat default_max_memory = 100000%Z
  ∧ length (memory self') ≤ capacity
  ∧ memory self' = drop (length ts - capacity) ts
  ∧ (1 ≤ capacity →
     ∀ t0 rest, ts = t0 :: rest → length rest = capacity →
       memory self' = rest
       ∧ last (memory self') = last ts
       ∧ (t0 ∉ rest → t0 ∉ memory self')).
Proof.
  intros self self'.
  assert (memory self' = drop (length ts - capacity) ts) as Hmem.
  { unfold self'. destruct (remember_all_memory self ts) as [-> _].
    apply (deque_fold_suffix capacity ts []). }
  split; [unfold default_max_memory; rewrite Z2Nat.id; lia|].
  split; [rewrite Hmem, length_drop; lia|].
  split; [done|].
  intros Hcap t0 rest -> Hrest. rewrite Hmem. simpl length.
  replace (S (length rest) - capacity) with 1 by lia. simpl.
  rewrite drop_0. split; [done|]. split; [|done].
  destruct rest as [|t1 rest]; [simpl in Hrest; lia|done].
Qed.

(** ** The exploration rate *)

Lemma pymax_spec (a b : R) :
  rleb a (pymax a b) = true ∧ rleb b (pymax a b) = true
  ∧ (pymax a b = a ∨ pymax a b = b).
Proof.
  unfold pymax. destruct (rltb a b) eqn:Hlt.
  - split; [by apply rltb_le|]. split; [apply rleb_refl | by right].
  - split; [apply rleb_refl|]. split; [|by left].
    unfold rltb in Hlt. by destruct (rleb b a).
Qed.

Lemma decay_epsilon_iter_frame (self : DeepQLearningModel) (n : nat) :
  epsilon_min (Nat.iter n decay_epsilon self) = epsilon_min self
  ∧ epsilon_decay (Nat.iter n decay_epsilon self) = epsilon_decay self.
Proof. induction n as [|n [IH1 IH2]]; simpl; [done|]. by rewrite IH1, IH2. Qed.

Lemma decay_epsilon_floor (self : DeepQLearningModel) :
  rleb (epsilon_min self) (epsilon (decay_epsilon self)) = true.
Proof. simpl. apply pymax_spec. Qed.

(** C6, as amended. A call of [decay_epsilon] sets epsilon to the larger
    of [epsilon * epsilon_decay] and [epsilon_min], so after a call epsilon
    is at least [epsilon_min]. When [0 <= epsilon_min <= epsilon] and
    [epsilon_decay <= 1] hold at the start, as they do for the default
    arguments, then along any sequence of calls epsilon never increases and
    never is below [epsilon_min]. *)
Theorem decay_epsilon_monotone (self : DeepQLearningModel) (n : nat) :
  let before := Nat.iter n decay_epsilon self in
  let after := decay_epsilon before in
  epsilon after = pymax (rmul (epsilon before) (epsilon_decay self)) (epsilon_min self)
  ∧ rleb (rmul (epsilon before) (epsilon_decay self)) (epsilon after) = true
  ∧ rleb (epsilon_min self) (epsilon after) = true
  ∧ (epsilon after = rmul (epsilon before) (epsilon_decay self)
     ∨ epsilon after = epsilon_min self)
  ∧ (rleb rzero (epsilon_min self) = true →
     rleb (epsilon_min self) (epsilon self) = true →
     rleb (epsilon_decay self) rone = true →
     rleb (epsilon after) (epsilon before) = true
     ∧ rleb (epsilon_min self) (epsilon before) = true).
Proof.
  intros before after.
  destruct (decay_epsilon_iter_frame self n) as [Hmin Hdecay].
  assert (epsilon after
          = pymax (rmul (epsilon before) (epsilon_decay self)) (epsilon_min self))
    as Hafter by (unfold after, before, decay_epsilon at 1, set_epsilon;
                  cbn [epsilon]; by rewrite Hmin, Hdecay).
  split; [done|]. rewrite Hafter.
  destruct (pymax_spec (rmul (epsilon before) (epsilon_decay self)) (epsilon_min self))
    as (Hge1 & Hge2 & Hor).
  do 3 (split; [done|]).
  intros H0 Hstart Hd.
  assert (rleb (epsilon_min self) (epsilon before) = true) as Hfloor.
  { unfold before. destruct n as [|n]; [done|]. simpl.
    destruct (decay_epsilon_iter_frame self n) as [<- _].
    apply decay_epsilon_floor. }
  split; [|done].
  destruct Hor as [-> | ->]; [|done].
  apply rmul_le_self; [|done]. by apply (rleb_trans _ (epsilon_min self)).
Qed.

(** ** Training on the replay memory *)

(** C7. With fewer than [batch_size] transitions in the memory
    [train_long_memory] returns at once: no training happens, no exception
    is raised, and the agent (its network parameters and every other field)
    and the random generator are what they were. *)
Theorem train_long_memory_noop (self : DeepQLearningModel) (g : rng) :
  length (memory self) < batch_size self →
  train_long_memory self g = (Ok self, g).
Proof. intros Hlen. unfold train_long_memory. by rewrite decide_True. Qed.

(** ** Action selection *)

Lemma random_not_below_zero (g : rng) : rltb (random g).1 rzero = false.
Proof. unfold rltb. by destruct (random_range g) as [-> _]. Qed.

(** C8. With [epsilon = 0.0] [choose_action] takes no random branch: on a
    well-shaped network and a state of its input width it returns the first
    position of the largest Q-value of a forward pass over the state, whatever
    the state of the random generator, and so does every agent with the
    same network parameters. *)
Theorem choose_action_greedy (self : DeepQLearningModel) (state : list (number R))
    (g : rng) :
  wf_network (model self) →
  length state = in_features (linear1 (model self)) →
  0 < out_features (linear3 (model self)) →
  ∃ (q : list R) (a : nat) (m : R),
    forward (model self) (tensor state) = Ok q
    ∧ (choose_action self state (Some rzero) g).1 = Ok (Z.of_nat a)
    ∧ q !! a = Some m
    ∧ (∀ j x, q !! j = Some x → rleb x m = true)
    ∧ (∀ j x, j < a → q !! j = Some x → rltb x m = true)
    ∧ (∀ (other : DeepQLearningModel) (g' : rng),
         model other = model self →
         (choose_action other state (Some rzero) g').1 = Ok (Z.of_nat a)).
Proof.
  intros Hwf Hlen Hout.
  destruct (forward_ok (model self) (tensor state) Hwf) as (q & Hq & Hlq);
    [by unfold tensor; rewrite length_map|].
  destruct (argmax_spec q) as (a & m & Ha & Hm & Hmax & Hfirst);
    [by intros ->; simpl in Hlq; lia|].
  assert (∀ (other : DeepQLearningModel) (g' : rng),
            model other = model self →
            (choose_action other state (Some rzero) g').1 = Ok (Z.of_nat a))
    as Hall.
  { intros other g' Hmodel. unfold choose_action.
    pose proof (random_not_below_zero g') as Hu.
    destruct (random g') as [u g1]. simpl in Hu. rewrite Hu, Hmodel, Hq.
    simpl. by rewrite Ha. }
  exists q, a, m. repeat split; try done. by apply Hall.
Qed.

(** ** Persistence *)

(** C9. When nothing is at the path, [load_model] raises nothing, returns
    the agent as it was (network parameters and every other field) and
    prints the notice that no saved model was found. A call that returns
    either did that, or found a file at the path, loaded its parameters into
    the network and switched the network to evaluation mode, printing the
    success notice and changing no other field. *)
Theorem load_model_cases (self : DeepQLearningModel) (fs : gmap string (node blob))
    (filename : string) :
  (fs !! filename = None →
   load_model self fs filename
   = Ok (self, ["No saved model found. Starting fresh."]))
  ∧ (∀ self' out,
       load_model self fs filename = Ok (self', out) →
       (fs !! filename = None ∧ self' = self
        ∧ out = ["No saved model found. Starting fresh."])
       ∨ (∃ b sd,
            fs !! filename = Some (File b)
            ∧ torch_load b = Ok sd
            ∧ load_state_dict (model self) sd = Ok sd
            ∧ self' = set_model self sd false (optimizer self) (optimizer_steps self)
            ∧ model self' = sd ∧ training self' = false
            ∧ out = ["Model loaded successfully."])).
Proof.
  unfold load_model. split.
  - by intros ->.
  - intros self' out Hload. destruct (fs !! filename) as [[b|]|] eqn:Hfs.
    + right. destruct (torch_load b) as [sd|] eqn:Hsd; [|done]. simpl in Hload.
      destruct (load_state_dict (model self) sd) as [net|] eqn:Hnet; [|done].
      simpl in Hload. injection Hload as <- <-.
      assert (net = sd) as ->.
      { unfold load_state_dict in Hnet. by case_match; simplify_eq. }
      by exists b, sd.
    + done.
    + left. by simplify_eq.
Qed.

(** ** Training on one transition *)

Lemma setitem_spec (t : list R) (i : nat) (v : R) :
  i < length t →
  setitem t i v = Ok (<[i := v]> t)
  ∧ length (<[i := v]> t) = length t
  ∧ <[i := v]> t !! i = Some v
  ∧ (∀ j, j ≠ i → <[i := v]> t !! j = t !! j).
Proof.
  intros Hi. unfold setitem. rewrite decide_True by done.
  split; [done|]. split; [apply length_insert|].
  split; [by apply list_lookup_insert_eq|].
  intros j Hj. by apply list_lookup_insert_ne.
Qed.

(** C4. On a well-shaped network, states of its input width and a valid
    action index, [train_short_memory] computes the Q-values [q] of [state],
    builds the target as a copy of [q] in which only the entry at [action]
    is replaced, by [reward] when the transition is terminal and by
    [reward + gamma * max(Q(next_state))] otherwise, the maximum coming from
    a forward pass at the current parameters that the loss treats as a
    constant, and takes exactly one optimiser step along the gradient of the
    mean squared error between prediction and target, after clearing the
    gradients. No other field of the agent changes. *)
Theorem train_short_memory_update (self : DeepQLearningModel)
    (state : list (number R)) (action : nat) (reward : number R)
    (next_state : list (number R)) (done : bool) :
  wf_network (model self) →
  length state = in_features (linear1 (model self)) →
  length next_state = in_features (linear1 (model self)) →
  action < out_features (linear3 (model self)) →
  ∃ (q q' target : list R) (m y : R) (self' : DeepQLearningModel),
    forward (model self) (tensor state) = Ok q
    ∧ forward (model self) (tensor next_state) = Ok q'
    ∧ tensor_max q' = Ok m ∧ m ∈ q' ∧ (∀ x, x ∈ q' → rleb x m = true)
    ∧ y = (if done then to_float reward
           else radd (to_float reward) (rmul (gamma self) m))
    ∧ length target = length q
    ∧ target !! action = Some y
    ∧ (∀ i, i ≠ action → target !! i = q !! i)
    ∧ train_short_memory self state action reward next_state done = Ok self'
    ∧ short_loss (tensor state) action y (model self) = mse q target
    ∧ (∀ net, short_loss (tensor state) action y net
              = mse (q_of net (tensor state))
                    (<[action := y]> (q_of net (tensor state))))
    ∧ grad self' = Some (autograd (short_loss (tensor state) action y) (model self))
    ∧ (optimizer self', model self')
      = adam_step (learning_rate self) (optimizer self) (model self)
          (autograd (short_loss (tensor state) action y) (model self))
    ∧ optimizer_steps self' = S (optimizer_steps self)
    ∧ set_grad (set_model self' (model self) (training self) (optimizer self)
                  (optimizer_steps self)) (grad self) = self.
Proof.
  intros Hwf Hs Hs' Ha.
  destruct (forward_ok (model self) (tensor state) Hwf) as (q & Hq & Hlq);
    [by unfold tensor; rewrite length_map|].
  destruct (forward_ok (model self) (tensor next_state) Hwf) as (q' & Hq' & Hlq');
    [by unfold tensor; rewrite length_map|].
  destruct (tensor_max_spec q') as (m & Hm & Hin & Hmax);
    [by intros ->; simpl in Hlq'; lia|].
  set (y := if done then to_float reward
            else radd (to_float reward) (rmul (gamma self) m)).
  destruct (setitem_spec q action y) as (Hset & Hlen & Hat & Hother); [lia|].
  set (loss := short_loss (tensor state) action y).
  destruct (adam_step (learning_rate self) (optimizer self) (model self)
              (autograd loss (model self))) as [st net] eqn:Hstep.
  exists q, q', (<[action := y]> q), m, y,
    (set_model (set_grad self (Some (autograd loss (model self)))) net
       (training self) st (S (optimizer_steps self))).
  do 9 (split; [done|]).
  split.
  { unfold train_short_memory. rewrite Hq, Hq'. simpl.
    assert ((if done then Ok (to_float reward)
             else tensor_max q' ≫= λ m0, Ok (radd (to_float reward) (rmul (gamma self) m0)))
            = Ok y) as -> by (unfold y; destruct done; [done|by rewrite Hm]).
    simpl. rewrite Hset. simpl. unfold optimizer_step, backward, zero_grad.
    simpl. fold loss. by rewrite Hstep. }
  split; [by unfold short_loss, q_of; rewrite Hq|].
  split; [done|]. split; [done|]. split; [done|]. split; [done|].
  by destruct self.
Qed.

(** ** Training on a batch *)

Lemma train_on_batch_ok (self : DeepQLearningModel) (batch : list Transition) :
  wf_network (model self) →
  batch ≠ [] →
  Forall (valid_transition (model self)) batch →
  ∃ preds target : list R,
    batch_q (model self) (map (λ t, tensor (t_state t)) batch) (map t_action batch)
    = Ok preds
    ∧ Forall2 (λ t p, ∃ q, forward (model self) (tensor (t_state t)) = Ok q
                           ∧ q !! t_action t = Some p) batch preds
    ∧ Forall2 (λ t y, ∃ q' m,
                 forward (model self) (tensor (t_next_state t)) = Ok q'
                 ∧ tensor_max q' = Ok m
                 ∧ y = radd (to_float (t_reward t))
                         (rmul (rmul (gamma self) m)
                            (float_of_bool (negb (t_done t))))) batch target
    ∧ train_on_batch self batch
      = Ok (optimizer_step
              (backward (long_loss (map (λ t, tensor (t_state t)) batch)
                           (map t_action batch) target) self)).
Proof.
  intros Hwf Hne Hvalid.
  set (out := out_features (linear3 (model self))).
  destruct (forward_batch_ok (model self) t_state (λ t, t_action t < out) batch Hwf)
    as (qs & Hqs & Hall);
    [eapply Forall_impl; [done|]; by intros t (? & _ & ?)|].
  destruct (gather_batch_ok
              (λ t q, forward (model self) (tensor (t_state t)) = Ok q)
              t_action batch qs) as (preds & Hpreds & Hallp);
    [eapply Forall2_impl; [done|]; intros t q [[? ?] ?]; split; [done|lia]|].
  destruct (forward_batch_ok (model self) t_next_state (λ t, t_action t < out) batch Hwf)
    as (qs' & Hqs' & Hall');
    [eapply Forall_impl; [done|]; by intros t (_ & ? & ?)|].
  destruct (max_batch_ok
              (λ t q, forward (model self) (tensor (t_next_state t)) = Ok q)
              batch qs') as (ms & Hms & Hallm).
  { eapply Forall2_impl; [done|]. intros t q [[? ?] Hlen]. split; [done|].
    intros ->. simpl in Hlen. unfold out in *. lia. }
  exists preds,
    (long_target (gamma self) (map (λ t, to_float (t_reward t)) batch) ms
       (map t_done batch)).
  split; [by unfold batch_q; rewrite Hqs|].
  split; [done|].
  split.
  { pose proof (long_target_spec _ (λ t, to_float (t_reward t)) t_done
                  (gamma self) batch ms Hallm) as Ht.
    eapply Forall2_impl; [exact Ht|].
    intros t y (m & (q' & ? & ?) & ->). by exists q', m. }
  unfold train_on_batch. destruct batch as [|t0 batch]; [done|].
  cbv beta iota zeta.
  rewrite (rectangular_same_length _ (in_features (linear1 (model self)))),
    (rectangular_same_length _ (in_features (linear1 (model self)))).
  - unfold batch_q. rewrite Hqs, bind_Ok, Hpreds, bind_Ok, Hqs', bind_Ok, Hms.
    by rewrite bind_Ok.
  - apply Forall_map. eapply Forall_impl; [done|]. intros t (_ & ? & _).
    by unfold tensor; rewrite length_map.
  - apply Forall_map. eapply Forall_impl; [done|]. intros t (? & _ & _).
    by unfold tensor; rewrite length_map.
Qed.

(** C3. With a well-shaped network, a positive [batch_size] and at least
    that many trainable transitions in the memory, [train_long_memory] draws
    [batch_size] distinct positions of the memory, predicts for each drawn
    transition the Q-value of its state at its recorded action, computes the
    target [reward + gamma * max(Q(next_state)) * (1 - terminal)] at the
    current parameters as a constant of the loss (so the target of a
    terminal transition is its reward), backpropagates the mean squared
    error over the whole batch and calls the optimiser once. The gradient
    the optimiser steps along is what [backward] leaves in [.grad]: the
    method never clears the gradients, so a gradient [g0] already stored
    there is added to the gradient of the batch loss. *)
Theorem train_long_memory_step (self : DeepQLearningModel) (g : rng) :
  wf_network (model self) →
  0 < batch_size self →
  batch_size self ≤ length (memory self) →
  Forall (valid_transition (model self)) (memory self) →
  ∃ (positions : list nat) (batch : list Transition) (preds target : list R)
    (self' : DeepQLearningModel) (g' : rng),
    sample g (length (memory self)) (batch_size self) = (positions, g')
    ∧ length positions = batch_size self
    ∧ NoDup positions
    ∧ Forall2 (λ i t, memory self !! i = Some t) positions batch
    ∧ Forall2 (λ t p, ∃ q, forward (model self) (tensor (t_state t)) = Ok q
                           ∧ q !! t_action t = Some p) batch preds
    ∧ Forall2 (λ t y, ∃ q' m,
                 forward (model self) (tensor (t_next_state t)) = Ok q'
                 ∧ tensor_max q' = Ok m
                 ∧ y = radd (to_float (t_reward t))
                         (rmul (rmul (gamma self) m)
                            (float_of_bool (negb (t_done t))))
                 ∧ y = (if t_done t then to_float (t_reward t)
                        else radd (to_float (t_reward t)) (rmul (gamma self) m)))
        batch target
    ∧ train_long_memory self g = (Ok self', g')
    ∧ let loss := long_loss (map (λ t, tensor (t_state t)) batch)
                    (map t_action batch) target in
      let accumulated :=
        match grad self with
        | None => autograd loss (model self)
        | Some g0 => gadd g0 (autograd loss (model self))
        end in
      loss (model self) = mse preds target
      ∧ grad self' = Some accumulated
      ∧ (optimizer self', model self')
        = adam_step (learning_rate self) (optimizer self) (model self) accumulated
      ∧ optimizer_steps self' = S (optimizer_steps self)
      ∧ memory self' = memory self
      ∧ epsilon self' = epsilon self.
Proof.
  intros Hwf Hpos Hlen Hvalid.
  destruct (sample_spec g (length (memory self)) (batch_size self) Hlen)
    as (Hk & Hnodup & Hrange).
  destruct (sample g (length (memory self)) (batch_size self))
    as [positions g'] eqn:Hsample. simpl in Hk, Hnodup, Hrange.
  pose proof (omap_lookup_ok (memory self) positions Hrange) as Hbatch.
  set (batch := omap (λ i, memory self !! i) positions) in *.
  assert (batch ≠ []) as Hne.
  { intros Hnil. rewrite Hnil in Hbatch. apply Forall2_length in Hbatch.
    simpl in Hbatch. lia. }
  assert (Forall (valid_transition (model self)) batch) as Hvb.
  { apply Forall_forall. intros t [j Hj]%list_elem_of_lookup_1.
    destruct (Forall2_lookup_r _ _ _ j t Hbatch Hj) as (i & _ & Hi).
    rewrite Forall_forall in Hvalid. apply Hvalid.
    by eapply list_elem_of_lookup_2. }
  destruct (train_on_batch_ok self batch Hwf Hne Hvb)
    as (preds & target & Hpreds & Hallp & Hallt & Htrain).
  set (loss := long_loss (map (λ t, tensor (t_state t)) batch)
                 (map t_action batch) target) in *.
  set (accumulated := match grad self with
                      | None => autograd loss (model self)
                      | Some g0 => gadd g0 (autograd loss (model self))
                      end).
  destruct (adam_step (learning_rate self) (optimizer self) (model self) accumulated)
    as [st net] eqn:Hstep.
  exists positions, batch, preds, target,
    (set_model (set_grad self (Some accumulated)) net (training self) st
       (S (optimizer_steps self))), g'.
  do 5 (split; [done|]).
  split.
  { eapply Forall2_impl; [exact Hallt|].
    intros t y (q' & m & ? & ? & ->). exists q', m.
    by rewrite long_target_entry. }
  split.
  { unfold train_long_memory. rewrite decide_False by lia. rewrite Hsample.
    fold batch. rewrite Htrain. unfold optimizer_step, backward. simpl.
    fold accumulated. by rewrite Hstep. }
  cbv zeta. split; [by unfold loss, long_loss; rewrite Hpreds|].
  by repeat split.
Qed.

End AgentProperties.

(** ** Concrete runs in exact arithmetic *)

Example body_scan_example :
  body_scan 5 6 [(5, 6); (5, 7); (6, 7)]%Z
  = {| body_up := 0; body_down := 1; body_left := 0; body_right := 0 |}.
Proof. reflexivity. Qed.

Example get_state_zero_width :
  get_state (example_snake (5, 6)%Z (5, 5)%Z) example_food
    {| width := 0; height := 10; is_within_bounds := λ _, true |}
  = (Raise ZeroDivisionError : result (list (number Qc))).
Proof. reflexivity. Qed.

Lemma get_state_vector_witness :
  width example_board ≠ 0%Z ∧ height example_board ≠ 0%Z
  ∧ ∃ v : list (number Qc),
      get_state (example_snake (5, 6)%Z (5, 5)%Z) example_food example_board = Ok v
      ∧ length v = 14
      ∧ v !! 2 = Some (Int (indicator (direction (example_snake (5, 6)%Z (5, 5)%Z) = "UP"))).
Proof.
  split; [discriminate|]. split; [discriminate|].
  destruct (get_state_vector (R := Qc) (example_snake (5, 6)%Z (5, 5)%Z)
              (example_snake (5, 6)%Z (5, 5)%Z) example_food
              example_board example_board)
    as (v & up & down & left & right & Hv & Hlen & _ & _ & Hup & _);
    [discriminate | discriminate |].
  exists v. repeat split; assumption.
Defined.

Lemma get_state_body_flags_witness :
  width example_board ≠ 0%Z ∧ height example_board ≠ 0%Z
  ∧ ∃ (v : list (number Qc)) (down : Z),
      get_state (example_snake (5, 6)%Z (5, 5)%Z) example_food example_board = Ok v
      ∧ v !! 11 = Some (Int down)
      ∧ (down = 1%Z
         ↔ ∃ seg, seg ∈ body (example_snake (5, 6)%Z (5, 5)%Z)
                  ∧ seg.1 = 5%Z ∧ (seg.2 > 6)%Z).
Proof.
  split; [discriminate|]. split; [discriminate|].
  destruct (get_state_body_flags (R := Qc) (example_snake (5, 6)%Z (5, 5)%Z)
              example_food example_board)
    as (v & up & down & left & right & Hv & _ & Hd & _ & _ & _ & _ & _ & _ & _
        & Hdown & _);
    [discriminate | discriminate |].
  exists v, down. repeat split; try assumption; apply Hdown.
Defined.

(** Capacity zero: the transition just remembered is not in the memory. *)
Lemma remember_capacity_zero_drops_newest :
  let self := example_agent 0 1 (Q2Qc 1) default_epsilon_decay in
  let newest := example_transition 1 false in
  memory (remember_all self [newest]) = []
  ∧ newest ∉ memory (remember_all self [newest]).
Proof. split; [reflexivity|]. apply not_elem_of_nil. Qed.

Lemma remember_fifo_witness :
  let self := example_agent 2 1 (Q2Qc 1) default_epsilon_decay in
  let ts := [example_transition 1 false; example_transition 10 true;
             example_transition (-1) false] in
  1 ≤ 2
  ∧ memory (remember_all self ts)
    = [example_transition 10 true; example_transition (-1) false]
  ∧ last (memory (remember_all self ts)) = Some (example_transition (-1) false).
Proof.
  intros self ts.
  destruct (@remember_fifo Qc toy_backend example_net 0%nat 14 2 default_learning_rate default_gamma
              2 1 (Q2Qc 1) default_epsilon_end default_epsilon_decay ts)
    as (_ & _ & _ & Hfifo).
  destruct (Hfifo (le_S 1 1 (le_n 1)) (example_transition 1 false)
              [example_transition 10 true; example_transition (-1) false]
              eq_refl eq_refl) as (Hmem & Hlast & _).
  split; [exact (le_S 1 1 (le_n 1))|]. split; [exact Hmem | exact Hlast].
Defined.

(** Started below [epsilon_min], epsilon goes up: from 0 to 1/100. *)
Lemma decay_epsilon_increases :
  let self := example_agent 2 1 (Q2Qc 0) default_epsilon_decay in
  epsilon self = Q2Qc 0
  ∧ epsilon (decay_epsilon self) = Q2Qc (1 # 100)
  ∧ ¬ rleb (epsilon (decay_epsilon self)) (epsilon self) = true.
Proof.
  split; [reflexivity|]. split; [by apply Qc_is_canon|].
  by vm_compute.
Qed.

(** With a decay rate above one, epsilon goes up too: from 1/2 to 1. *)
Example decay_epsilon_increases_by_rate :
  let self := example_agent 2 1 (Q2Qc (1 # 2)) (Q2Qc 2) in
  epsilon (decay_epsilon self) = Q2Qc 1
  ∧ ¬ rleb (epsilon (decay_epsilon self)) (epsilon self) = true.
Proof. split; [by apply Qc_is_canon | by vm_compute]. Qed.

Lemma decay_epsilon_monotone_witness :
  let self := example_agent default_max_memory default_batch_size
                default_epsilon_start default_epsilon_decay in
  rleb rzero (epsilon_min self) = true
  ∧ rleb (epsilon_min self) (epsilon self) = true
  ∧ rleb (epsilon_decay self) rone = true
  ∧ rleb (epsilon (Nat.iter 4 decay_epsilon self))
         (epsilon (Nat.iter 3 decay_epsilon self)) = true
  ∧ rleb (epsilon_min self) (epsilon (Nat.iter 4 decay_epsilon self)) = true.
Proof.
  intros self.
  assert (rleb rzero (epsilon_min self) = true) as H0 by reflexivity.
  assert (rleb (epsilon_min self) (epsilon self) = true) as Hstart by reflexivity.
  assert (rleb (epsilon_decay self) rone = true) as Hrate by reflexivity.
  destruct (decay_epsilon_monotone self 3) as (_ & _ & Hfloor & _ & Hmono).
  destruct (Hmono H0 Hstart Hrate) as [Hle _].
  repeat split; assumption.
Defined.

Lemma train_long_memory_noop_witness :
  let self := remember_all
                (example_agent default_max_memory default_batch_size
                   default_epsilon_start default_epsilon_decay)
                [example_transition 1 false; example_transition 10 true] in
  length (memory self) < batch_size self
  ∧ train_long_memory self 0%nat = (Ok self, 0%nat).
Proof.
  intros self.
  assert (length (memory self) < batch_size self) as Hlen
    by (apply Nat.ltb_lt; reflexivity).
  split; [exact Hlen|].
  exact (train_long_memory_noop (Random0 := toy_random) self 0%nat Hlen).
Defined.

Lemma example_net_wf : wf_network example_net.
Proof. by repeat split. Defined.

Lemma choose_action_greedy_witness :
  let self := example_agent 2 1 (Q2Qc 1) default_epsilon_decay in
  let state := example_state (5, 6)%Z (5, 5)%Z in
  wf_network (model self)
  ∧ length state = in_features (linear1 (model self))
  ∧ 0 < out_features (linear3 (model self))
  ∧ ∃ a, (choose_action self state (Some rzero) 0%nat).1 = Ok (Z.of_nat a)
         ∧ (choose_action self state (Some rzero) 7%nat).1 = Ok (Z.of_nat a).
Proof.
  intros self state.
  assert (0 < out_features (linear3 (model self))) as Hout
    by (apply Nat.ltb_lt; reflexivity).
  split; [exact example_net_wf|]. split; [reflexivity|]. split; [exact Hout|].
  destruct (choose_action_greedy (Random0 := toy_random) self state 0%nat
              example_net_wf eq_refl Hout)
    as (q & a & m & _ & Ha & _ & _ & _ & Hall).
  exists a. split; [exact Ha|]. by apply Hall.
Defined.

Example choose_action_greedy_run :
  (choose_action (example_agent 2 1 (Q2Qc 1) default_epsilon_decay)
     (example_state (5, 6)%Z (5, 5)%Z) (Some rzero) 0%nat).1 = Ok 0%Z.
Proof. by vm_compute. Qed.

Lemma train_short_memory_update_witness :
  let self := example_agent 2 1 (Q2Qc 1) default_epsilon_decay in
  let state := example_state (5, 7)%Z (5, 6)%Z in
  let next_state := example_state (5, 6)%Z (5, 5)%Z in
  wf_network (model self)
  ∧ length state = in_features (linear1 (model self))
  ∧ length next_state = in_features (linear1 (model self))
  ∧ 1 < out_features (linear3 (model self))
  ∧ ∃ self', train_short_memory self state 1 (Int 1) next_state false = Ok self'
             ∧ optimizer_steps self' = 1
             ∧ memory self' = memory self.
Proof.
  intros self state next_state.
  assert (1 < out_features (linear3 (model self))) as Hout
    by (apply Nat.ltb_lt; reflexivity).
  split; [exact example_net_wf|]. split; [reflexivity|]. split; [reflexivity|].
  split; [exact Hout|].
  destruct (train_short_memory_update self state 1 (Int 1) next_state false
              example_net_wf eq_refl eq_refl Hout)
    as (q & q' & target & m & y & self' & _ & _ & _ & _ & _ & _ & _ & _ & _
        & Hrun & _ & _ & _ & _ & Hsteps & Hframe).
  exists self'. split; [exact Hrun|]. split; [exact Hsteps|].
  by rewrite <- Hframe.
Defined.

Lemma example_memory_valid :
  Forall (valid_transition example_net)
    [example_transition 1 false; example_transition 10 true].
Proof. repeat constructor; apply Nat.ltb_lt; reflexivity. Defined.

Lemma train_long_memory_step_witness :
  let self := remember_all (example_agent 2 1 (Q2Qc 1) default_epsilon_decay)
                [example_transition 1 false; example_transition 10 true] in
  wf_network (model self)
  ∧ 0 < batch_size self
  ∧ batch_size self ≤ length (memory self)
  ∧ Forall (valid_transition (model self)) (memory self)
  ∧ ∃ self' g', train_long_memory self 0%nat = (Ok self', g')
                ∧ optimizer_steps self' = 1
                ∧ memory self' = memory self.
Proof.
  intros self.
  assert (0 < batch_size self) as Hpos by (apply Nat.ltb_lt; reflexivity).
  assert (batch_size self ≤ length (memory self)) as Hlen
    by (apply Nat.leb_le; reflexivity).
  split; [exact example_net_wf|]. split; [exact Hpos|]. split; [exact Hlen|].
  split; [exact example_memory_valid|].
  destruct (train_long_memory_step (Random0 := toy_random) self 0%nat
              example_net_wf Hpos Hlen example_memory_valid)
    as (positions & batch & preds & target & self' & g' & _ & _ & _ & _ & _ & _
        & Hrun & _ & _ & _ & Hsteps & Hmem & _).
  exists self', g'. split; [exact Hrun|]. split; [exact Hsteps | exact Hmem].
Defined.

(** A gradient left in [.grad] changes what [train_long_memory] does to the
    network: with the same memory, parameters and random draws, the first
    output bias ends at another value when [.grad] held 1 before the call
    than when it was clear. *)
Example train_long_memory_stale_gradient :
  let clear := remember_all (example_agent 2 1 (Q2Qc 1) default_epsilon_decay)
                 [example_transition 1 false; example_transition 10 true] in
  let stale := set_grad clear (Some (Q2Qc 1)) in
  model stale = model clear
  ∧ memory stale = memory clear
  ∧ ∃ b b', bias_after_long clear = Some b
            ∧ bias_after_long stale = Some b'
            ∧ rltb b' b = true.
Proof.
  split; [reflexivity|]. split; [reflexivity|].
  eexists _, _. split; [reflexivity|]. split; [reflexivity|]. by vm_compute.
Qed.

(** The same gradient does not reach the step of [train_short_memory], which
    clears [.grad] first. *)
Example train_short_memory_clears_gradient :
  let clear := example_agent 2 1 (Q2Qc 1) default_epsilon_decay in
  let stale := set_grad clear (Some (Q2Qc 1)) in
  let state := example_state (5, 7)%Z (5, 6)%Z in
  let next_state := example_state (5, 6)%Z (5, 5)%Z in
  train_short_memory stale state 1 (Int 1) next_state false
  = train_short_memory clear state 1 (Int 1) next_state false.
Proof. reflexivity. Qed.

Example load_model_no_file :
  load_model (example_agent 2 1 (Q2Qc 1) default_epsilon_decay) ∅ "model.pth"
  = Ok (example_agent 2 1 (Q2Qc 1) default_epsilon_decay,
        ["No saved model found. Starting fresh."]).
Proof. reflexivity. Qed.

Example save_then_load_model :
  let self := example_agent 2 1 (Q2Qc 1) default_epsilon_decay in
  ∃ fs self', save_model self ∅ "model.pth" = Ok fs
              ∧ load_model self fs "model.pth"
                = Ok (self', ["Model loaded successfully."])
              ∧ model self' = model self
              ∧ training self' = false.
Proof. by eexists _, _. Qed.

(** * Further properties *)

(** ** The reward of a one-cell move *)

(** X1. For a move of one cell (the next head position is at Manhattan
    distance 1 of the head) that stays in bounds, hits no segment and does
    not reach the food, the distance to the food changes by exactly one, so
    the two tie-free cases remain: +1 with the distance one smaller, -1 with
    the distance one larger. *)
Theorem get_reward_unit_move (snake : Snake) (food : Food) (board : Board) :
  manhattan (head_position snake) (get_next_head_position snake) = 1%Z →
  is_within_bounds board (get_next_head_position snake) = true →
  has_collision snake = false →
  get_next_head_position snake ≠ position food →
  let before := manhattan (head_position snake) (position food) in
  let after := manhattan (get_next_head_position snake) (position food) in
  (get_reward snake food board = 1%Z ∧ after = (before - 1)%Z)
  ∨ (get_reward snake food board = (-1)%Z ∧ after = (before + 1)%Z).
Proof.
  unfold get_reward, manhattan.
  destruct snake as [[hx hy] d b [nx ny] col], food as [[fx fy]]; simpl.
  intros Hunit -> -> Hfood. simpl.
  assert ((nx =? fx)%Z && (ny =? fy)%Z = false) as ->.
  { apply andb_false_iff.
    destruct (Z.eqb_spec nx fx) as [-> | ?]; [|by left].
    destruct (Z.eqb_spec ny fy) as [-> | ?]; [done | by right]. }
  destruct (Z.ltb_spec (Z.abs (nx - fx) + Z.abs (ny - fy))
              (Z.abs (hx - fx) + Z.abs (hy - fy))); [left | right];
    (split; [reflexivity | lia]).
Qed.

(** ** The direction and body entries of the state vector *)

(** The flags after the loop, each read off the whole body. *)
Lemma body_scan_flags (hx hy : Z) (segments : list (Z * Z)) :
  body_scan hx hy segments
  = {| body_up :=
         if existsb (λ seg, (seg.1 =? hx)%Z && (seg.2 <? hy)%Z) segments
         then 1%Z else 0%Z;
       body_down :=
         if existsb (λ seg, (seg.1 =? hx)%Z && (seg.2 >? hy)%Z) segments
         then 1%Z else 0%Z;
       body_left :=
         if existsb (λ seg, (seg.2 =? hy)%Z && (seg.1 <? hx)%Z) segments
         then 1%Z else 0%Z;
       body_right :=
         if existsb (λ seg, (seg.2 =? hy)%Z && (seg.1 >? hx)%Z) segments
         then 1%Z else 0%Z |}.
Proof.
  unfold body_scan.
  set (fl0 := {| body_up := 0; body_down := 0; body_left := 0; body_right := 0 |}).
  pose proof (flag_fold _ body_up _ (body_step_up hx hy) segments fl0) as Hup.
  pose proof (flag_fold _ body_down _ (body_step_down hx hy) segments fl0) as Hdown.
  pose proof (flag_fold _ body_left _ (body_step_left hx hy) segments fl0) as Hleft.
  pose proof (flag_fold _ body_right _ (body_step_right hx hy) segments fl0) as Hright.
  destruct (fold_left (body_step hx hy) segments fl0) as [u d l r].
  simpl in *. by rewrite Hup, Hdown, Hleft, Hright.
Qed.

Lemma body_scan_ext (hx hy : Z) (b1 b2 : list (Z * Z)) :
  (∀ seg, seg ∈ b1 ↔ seg ∈ b2) → body_scan hx hy b1 = body_scan hx hy b2.
Proof.
  intros Hsame.
  assert (∀ c : Z * Z → bool, existsb c b1 = existsb c b2) as Hex.
  { intros c. apply eq_true_iff_eq. rewrite !existsb_exists.
    split; intros (seg & Hin & Hc); exists seg; (split; [|done]);
      apply list_elem_of_In, Hsame, list_elem_of_In, Hin. }
  by rewrite !body_scan_flags, !Hex.
Qed.

Section FurtherFeatureProperties.
Context {R : Type} `{!Scalar R}.

(** X2. The four direction entries of the state vector are a one-hot
    code of the four upper-case names: at most one of them is 1, and one is
    1 exactly when [direction] is "UP", "DOWN", "LEFT" or "RIGHT"; for any
    other string all four are 0. *)
Theorem get_state_direction_one_hot (snake : Snake) (food : Food) (board : Board) :
  width board ≠ 0%Z → height board ≠ 0%Z →
  ∃ (v : list (number R)) (up down left right : Z),
    get_state snake food board = Ok v
    ∧ v !! 2 = Some (Int up) ∧ v !! 3 = Some (Int down)
    ∧ v !! 4 = Some (Int left) ∧ v !! 5 = Some (Int right)
    ∧ (0 ≤ up ∧ 0 ≤ down ∧ 0 ≤ left ∧ 0 ≤ right)%Z
    ∧ (up + down + left + right ≤ 1)%Z
    ∧ ((up + down + left + right = 1)%Z
       ↔ direction snake = "UP" ∨ direction snake = "DOWN"
         ∨ direction snake = "LEFT" ∨ direction snake = "RIGHT").
Proof.
  intros Hw Hh. do 5 eexists. split; [by apply get_state_ok|].
  do 4 (split; [reflexivity|]).
  destruct (String.eqb_spec (direction snake) "UP") as [-> | Hup]; simpl;
    [split; [lia|]; split; [lia|]; split; [intros _; by left | lia]|].
  destruct (String.eqb_spec (direction snake) "DOWN") as [-> | Hdown]; simpl;
    [split; [lia|]; split; [lia|]; split; [intros _; by right; left | lia]|].
  destruct (String.eqb_spec (direction snake) "LEFT") as [-> | Hleft]; simpl;
    [split; [lia|]; split; [lia|]; split; [intros _; by right; right; left | lia]|].
  destruct (String.eqb_spec (direction snake) "RIGHT") as [-> | Hright]; simpl;
    [split; [lia|]; split; [lia|]; split; [intros _; by right; right; right | lia]|].
  split; [lia|]. split; [lia|]. split; [lia|]. intros [?|[?|[?|?]]]; done.
Qed.

(** X3. The state vector depends on the body only through the set of
    its segments: a body with the same segments in another order, or with
    repeated segments, gives the same result. *)
Theorem get_state_body_as_set (snake : Snake) (food : Food) (board : Board)
    (segments : list (Z * Z)) :
  (∀ seg, seg ∈ segments ↔ seg ∈ body snake) →
  get_state (R := R) (set_body snake segments) food board
  = get_state snake food board.
Proof.
  intros Hsame. unfold get_state. simpl.
  destruct (head_position snake) as [hx hy], (position food) as [fx fy].
  by rewrite (body_scan_ext hx hy segments (body snake) Hsame).
Qed.

End FurtherFeatureProperties.

(** ** The forward pass and the greedy action *)

Section FurtherNetworkProperties.
Context {R : Type} `{!Scalar R}.

Lemma forward_wrong_width (net : DeepQNetwork R) (x : list R) :
  length x ≠ in_features (linear1 net) → forward net x = Raise RuntimeError.
Proof. intros Hx. unfold forward, linear. by rewrite decide_False. Qed.

(** X4. A well-shaped network accepts exactly the input rows of its input
    width: for such a row the forward pass returns one Q-value per output of
    the last layer, for a row of any other width it raises the shape error
    of the library. *)
Theorem forward_shape (net : DeepQNetwork R) (x : list R) :
  wf_network net →
  (length x = in_features (linear1 net) →
   ∃ q, forward net x = Ok q ∧ length q = out_features (linear3 net))
  ∧ (length x ≠ in_features (linear1 net) → forward net x = Raise RuntimeError).
Proof.
  intros Hwf. split; [by apply forward_ok | apply forward_wrong_width].
Qed.

(** The entry at the position [argmax] returns is the value [tensor_max]
    returns: both keep the first largest entry. *)
Lemma argmax_from_value (t l : list R) (bi i : nat) (best : R) :
  l !! bi = Some best → i = length l →
  (l ++ t) !! argmax_from bi best i t
  = Some (fold_left (λ m y, if rltb m y then y else m) t best).
Proof.
  revert l bi i best. induction t as [|y t IH]; intros l bi i best Hbi ->; simpl.
  - by rewrite app_nil_r.
  - rewrite (cons_middle y l t), app_assoc. destruct (rltb best y).
    + apply IH; [|rewrite length_app; simpl; lia].
      by rewrite lookup_app_r, Nat.sub_diag.
    + apply IH; [|rewrite length_app; simpl; lia].
      by apply lookup_app_l_Some.
Qed.

Lemma argmax_tensor_max (t : list R) :
  t ≠ [] → ∃ a m, argmax t = Ok a ∧ tensor_max t = Ok m ∧ t !! a = Some m.
Proof.
  destruct t as [|x t]; [done|]. intros _. do 2 eexists.
  split; [reflexivity|]. split; [reflexivity|].
  by apply (argmax_from_value t [x] 0 1 x).
Qed.

End FurtherNetworkProperties.

Section FurtherAgentProperties.
Context {R : Type} `{!Scalar R} `{!Backend R} `{!Random R}.

Lemma random_below (g : rng) (e : R) :
  rleb rone e = true → rltb (random g).1 e = true.
Proof.
  intros He. destruct (random_range g) as [_ Hlt]. unfold rltb in *.
  destruct (rleb e (random g).1) eqn:Hle; [|done].
  by rewrite (rleb_trans _ _ _ He Hle) in Hlt.
Qed.

(** X5. The bootstrap value of the training target is the Q-value of
    the greedy action: on a well-shaped network, the maximum over
    [Q(next_state)] that [train_short_memory] and [train_long_memory] take
    with [torch.max] is the entry of [Q(next_state)] at the action that
    [choose_action(next_state, epsilon=0.0)] returns. *)
Theorem greedy_action_value_is_max (self : DeepQLearningModel)
    (next_state : list (number R)) (g : rng) :
  wf_network (model self) →
  length next_state = in_features (linear1 (model self)) →
  0 < out_features (linear3 (model self)) →
  ∃ (q : list R) (a : nat) (m : R),
    forward (model self) (tensor next_state) = Ok q
    ∧ (choose_action self next_state (Some rzero) g).1 = Ok (Z.of_nat a)
    ∧ tensor_max q = Ok m
    ∧ q !! a = Some m.
Proof.
  intros Hwf Hlen Hout.
  destruct (forward_ok (model self) (tensor next_state) Hwf) as (q & Hq & Hlq);
    [by unfold tensor; rewrite length_map|].
  destruct (argmax_tensor_max q) as (a & m & Ha & Hm & Hqa);
    [by intros ->; simpl in Hlq; lia|].
  exists q, a, m. split; [done|]. split; [|done].
  unfold choose_action. pose proof (random_not_below_zero g) as Hu.
  destruct (random g) as [u g1]. simpl in Hu. rewrite Hu, Hq. simpl.
  by rewrite Ha.
Qed.

(** X6. With an exploration rate of at least one (given as argument, or
    the own rate of the agent when the argument is omitted) [choose_action]
    never consults the network: for any state, also one of a wrong width, it
    returns an index in [0, action_space_size) when there is at least one
    action, and raises [ValueError] when [action_space_size] is zero or
    negative. *)
Theorem choose_action_explores (self : DeepQLearningModel) (state : list (number R))
    (epsilon_arg : option R) (g : rng) :
  rleb rone (default (epsilon self) epsilon_arg) = true →
  ((1 ≤ action_space_size self)%Z →
   ∃ a, (choose_action self state epsilon_arg g).1 = Ok a
        ∧ (0 ≤ a < action_space_size self)%Z)
  ∧ ((action_space_size self ≤ 0)%Z →
     (choose_action self state epsilon_arg g).1 = Raise ValueError).
Proof.
  intros He. unfold choose_action.
  assert (match epsilon_arg with Some e => e | None => epsilon self end
          = default (epsilon self) epsilon_arg) as -> by by destruct epsilon_arg.
  pose proof (random_below g _ He) as Hu.
  destruct (random g) as [u g1]. simpl in Hu. rewrite Hu.
  split; intros Hn.
  - rewrite decide_True by lia.
    pose proof (randint_range g1 0 (action_space_size self - 1)) as Hr.
    destruct (randint g1 0 (action_space_size self - 1)) as [a g2]. simpl in *.
    exists a. split; [done|]. lia.
  - by rewrite decide_False by lia.
Qed.

(** X7. [choose_action] returns a valid action whatever the exploration
    rate and the random draws: on a well-shaped network with one output per
    action and a state of the input width, the result is an index in
    [0, action_space_size). *)
Theorem choose_action_in_range (self : DeepQLearningModel) (state : list (number R))
    (epsilon_arg : option R) (g : rng) :
  wf_network (model self) →
  length state = in_features (linear1 (model self)) →
  action_space_size self = Z.of_nat (out_features (linear3 (model self))) →
  0 < out_features (linear3 (model self)) →
  ∃ a, (choose_action self state epsilon_arg g).1 = Ok a
       ∧ (0 ≤ a < action_space_size self)%Z.
Proof.
  intros Hwf Hlen Hn Hout. unfold choose_action.
  destruct (random g) as [u g1].
  destruct (rltb u _).
  - rewrite decide_True by lia.
    pose proof (randint_range g1 0 (action_space_size self - 1)) as Hr.
    destruct (randint g1 0 (action_space_size self - 1)) as [a g2]. simpl in *.
    exists a. split; [done|]. lia.
  - destruct (forward_ok (model self) (tensor state) Hwf) as (q & Hq & Hlq);
      [by unfold tensor; rewrite length_map|].
    destruct (argmax_tensor_max q) as (a & m & Ha & _ & Hqa);
      [by intros ->; simpl in Hlq; lia|].
    apply lookup_lt_Some in Hqa.
    exists (Z.of_nat a). simpl. rewrite Hq. simpl. rewrite Ha. simpl.
    split; [done|]. lia.
Qed.

(** X8. Greedy selection on a state whose length is not the input width of
    the network raises the shape error of the library. *)
Theorem choose_action_wrong_width (self : DeepQLearningModel)
    (state : list (number R)) (g : rng) :
  length state ≠ in_features (linear1 (model self)) →
  (choose_action self state (Some rzero) g).1 = Raise RuntimeError.
Proof.
  intros Hlen. unfold choose_action. pose proof (random_not_below_zero g) as Hu.
  destruct (random g) as [u g1]. simpl in Hu. rewrite Hu.
  rewrite forward_wrong_width; [done|].
  by unfold tensor; rewrite length_map.
Qed.

(** ** The replay memory from any state *)

(** X9. From any memory within its capacity, a sequence of [remember]
    calls leaves the last [max_memory] entries of the old memory followed by
    the new transitions; once at least [max_memory] transitions have been
    remembered nothing of the old memory is left. *)
Theorem remember_all_suffix (self : DeepQLearningModel) (ts : list Transition) :
  length (memory self) ≤ max_memory self →
  memory (remember_all self ts)
  = drop (length (memory self ++ ts) - max_memory self) (memory self ++ ts)
  ∧ (max_memory self ≤ length ts →
     memory (remember_all self ts) = drop (length ts - max_memory self) ts).
Proof.
  intros Hcap. destruct (remember_all_memory self ts) as [Hmem _].
  assert (memory (remember_all self ts)
          = drop (length (memory self ++ ts) - max_memory self) (memory self ++ ts))
    as Hsuffix.
  { rewrite Hmem, <- deque_fold_suffix.
    by replace (length (memory self) - max_memory self) with 0 by lia. }
  split; [done|]. intros Hlen. rewrite Hsuffix, length_app.
  rewrite drop_app_ge by lia. f_equal. lia.
Qed.

(** ** Training: stale gradients and rejected inputs *)

(** X10. What [train_short_memory] does to the network depends on the
    current parameters, the optimiser state, the learning rate and [gamma]
    only: two agents that agree on these get the same parameters, optimiser
    state and gradients, or the same exception, whatever their memories,
    exploration rates and the gradients left in [.grad] by earlier calls. *)
Theorem train_short_memory_depends_on (a b : DeepQLearningModel)
    (state : list (number R)) (action : nat) (reward : number R)
    (next_state : list (number R)) (done : bool) :
  model a = model b → optimizer a = optimizer b →
  learning_rate a = learning_rate b → gamma a = gamma b →
  match train_short_memory a state action reward next_state done,
        train_short_memory b state action reward next_state done with
  | Ok a', Ok b' =>
      model a' = model b' ∧ optimizer a' = optimizer b' ∧ grad a' = grad b'
  | Raise e, Raise e' => e = e'
  | _, _ => False
  end.
Proof.
  intros Hmodel Hopt Hlr Hgamma. unfold train_short_memory.
  rewrite Hmodel, Hgamma.
  destruct (forward (model b) (tensor state)) as [q|e]; [|done].
  destruct (forward (model b) (tensor next_state)) as [q'|e]; [|done]. simpl.
  destruct (if done then Ok (to_float reward)
            else tensor_max q' ≫= λ m, Ok (radd (to_float reward) (rmul (gamma b) m)))
    as [y|e]; [|done].
  simpl. destruct (setitem q action y) as [target|e]; [|done]. simpl.
  unfold optimizer_step, backward, zero_grad. simpl.
  rewrite Hmodel, Hopt, Hlr.
  by destruct (adam_step (learning_rate b) (optimizer b) (model b)
                 (autograd (short_loss (tensor state) action y) (model b))).
Qed.

(** X11. [train_short_memory] trains on nothing it cannot index: on a
    well-shaped network, a state or next state of the wrong width or an
    action beyond the outputs of the network makes the call raise, and no
    agent is returned. *)
Theorem train_short_memory_rejects (self : DeepQLearningModel)
    (state : list (number R)) (action : nat) (reward : number R)
    (next_state : list (number R)) (done : bool) :
  wf_network (model self) →
  length state ≠ in_features (linear1 (model self))
  ∨ length next_state ≠ in_features (linear1 (model self))
  ∨ out_features (linear3 (model self)) ≤ action →
  ∃ e, train_short_memory self state action reward next_state done = Raise e.
Proof.
  intros Hwf Hbad. unfold train_short_memory.
  destruct (forward (model self) (tensor state)) as [q|e] eqn:Hq; [|by exists e].
  destruct (forward (model self) (tensor next_state)) as [q'|e] eqn:Hq';
    [|by exists e].
  assert (length (tensor state) = length state) as Hts
    by (unfold tensor; apply length_map).
  assert (length (tensor next_state) = length next_state) as Hts'
    by (unfold tensor; apply length_map).
  destruct Hbad as [Hs | [Hs | Ha]].
  - rewrite forward_wrong_width in Hq by lia. done.
  - rewrite forward_wrong_width in Hq' by lia. done.
  - destruct (decide (length (tensor state) = in_features (linear1 (model self))))
      as [Hw | Hw]; [|rewrite forward_wrong_width in Hq by done; done].
    destruct (forward_ok (model self) (tensor state) Hwf Hw) as (q0 & Hq0 & Hlen).
    rewrite Hq in Hq0. injection Hq0 as <-. simpl.
    destruct (if done then Ok (to_float reward)
              else tensor_max q' ≫= λ m, Ok (radd (to_float reward) (rmul (gamma self) m)))
      as [y|e]; [|by exists e].
    simpl. unfold setitem. rewrite decide_False by lia. by exists IndexError.
Qed.

(** X12. With [batch_size = 0] the guard of [train_long_memory] never
    returns early, the sample is empty and unpacking it raises [ValueError]:
    the call fails for every memory, the empty one included. *)
Theorem train_long_memory_zero_batch (self : DeepQLearningModel) (g : rng) :
  batch_size self = 0 →
  (train_long_memory self g).1 = Raise ValueError.
Proof.
  intros Hb. unfold train_long_memory. rewrite Hb.
  rewrite decide_False by lia.
  destruct (sample_spec g (length (memory self)) 0) as (Hlen & _); [lia|].
  destruct (sample g (length (memory self)) 0) as [positions g']. simpl in *.
  by apply nil_length_inv in Hlen as ->.
Qed.

End FurtherAgentProperties.

Section FurtherStateProperties.
Context {R : Type} `{!Scalar R}.

(** X13. [get_state] raises, and then [ZeroDivisionError], exactly on a
    board whose width or height is zero; on every other board it returns a
    vector. *)
Theorem get_state_raises_iff (snake : Snake) (food : Food) (board : Board) :
  (get_state (R := R) snake food board = Raise ZeroDivisionError
   ↔ width board = 0%Z ∨ height board = 0%Z)
  ∧ (∀ e, get_state (R := R) snake food board = Raise e → e = ZeroDivisionError)
  ∧ ((∃ v, get_state (R := R) snake food board = Ok v)
     ↔ width board ≠ 0%Z ∧ height board ≠ 0%Z).
Proof.
  destruct (decide (width board = 0%Z)) as [Hw | Hw].
  { pose proof (get_state_zero_division (R := R) snake food board (or_introl Hw)) as ->.
    split; [by split; [left|]|]. split; [by intros e [= <-]|].
    split; [by intros [v ?] | by intros [? _]]. }
  destruct (decide (height board = 0%Z)) as [Hh | Hh].
  { pose proof (get_state_zero_division (R := R) snake food board (or_intror Hh)) as ->.
    split; [by split; [right|]|]. split; [by intros e [= <-]|].
    split; [by intros [v ?] | by intros [_ ?]]. }
  rewrite (get_state_ok snake food board Hw Hh).
  split; [split; [done | by intros [? | ?]]|]. split; [done|].
  split; [done | by eexists].
Qed.

End FurtherStateProperties.

Section PersistenceProperties.
Context {R : Type} `{!Scalar R} `{!Backend R} `{!Random R}.



(** X16. [load_model] recovers from nothing but a missing file: a
    directory at the path, a file the library cannot read and a state dict
    of other layer sizes each make the call raise, the second with the
    exception of the library. *)
Theorem load_model_propagates (self : DeepQLearningModel)
    (fs : gmap string (node blob)) (filename : string) :
  (fs !! filename = Some Dir → load_model self fs filename = Raise OSError)
  ∧ (∀ b e, fs !! filename = Some (File b) → torch_load b = Raise e →
            load_model self fs filename = Raise e)
  ∧ (∀ b sd, fs !! filename = Some (File b) → torch_load b = Ok sd →
             in_features (linear1 sd) ≠ in_features (linear1 (model self))
             ∨ out_features (linear3 sd) ≠ out_features (linear3 (model self)) →
             load_model self fs filename = Raise RuntimeError).
Proof.
  unfold load_model. split; [by intros ->|]. split.
  - intros b e -> Hload. by rewrite Hload.
  - intros b sd -> -> Hshape. simpl. unfold load_state_dict, same_shape.
    destruct Hshape as [Hin | Hout].
    + rewrite (bool_decide_eq_false_2 (in_features (linear1 (model self))
                                       = in_features (linear1 sd))) by done.
      done.
    + rewrite (bool_decide_eq_false_2 (out_features (linear3 (model self))
                                       = out_features (linear3 sd))) by done.
      by rewrite !andb_false_r.
Qed.

(** ** The agent across calls *)

Lemma optimizer_step_frame (self : DeepQLearningModel) :
  same_hyperparameters self (optimizer_step self)
  ∧ memory (optimizer_step self) = memory self
  ∧ epsilon (optimizer_step self) = epsilon self
  ∧ training (optimizer_step self) = training self
  ∧ optimizer_steps (optimizer_step self) = S (optimizer_steps self).
Proof.
  unfold optimizer_step, same_hyperparameters.
  destruct (grad self) as [g|]; [|by repeat split].
  by destruct (adam_step (learning_rate self) (optimizer self) (model self) g).
Qed.

Lemma train_short_memory_inv (self self' : DeepQLearningModel)
    (state : list (number R)) (action : nat) (reward : number R)
    (next_state : list (number R)) (done : bool) :
  train_short_memory self state action reward next_state done = Ok self' →
  ∃ loss, self' = optimizer_step (backward loss (zero_grad self)).
Proof.
  unfold train_short_memory.
  destruct (forward (model self) (tensor state)) as [q|e]; [|done].
  destruct (forward (model self) (tensor next_state)) as [q'|e]; [|done]. simpl.
  destruct (if done then Ok (to_float reward)
            else tensor_max q' ≫= λ m, Ok (radd (to_float reward) (rmul (gamma self) m)))
    as [y|e]; [|done].
  simpl. destruct (setitem q action y) as [target|e]; [|done]. simpl.
  intros [= <-]. by eexists.
Qed.

Lemma train_on_batch_inv (self self' : DeepQLearningModel)
    (mini_batch : list Transition) :
  train_on_batch self mini_batch = Ok self' →
  ∃ loss, self' = optimizer_step (backward loss self).
Proof.
  unfold train_on_batch. destruct mini_batch as [|t0 mini_batch]; [done|].
  cbv beta iota zeta.
  destruct (negb _); [done|].
  destruct (batch_q _ _ _) as [q|e]; [|done]. rewrite bind_Ok.
  destruct (traverse (forward (model self)) _) as [q'|e]; [|done]. rewrite bind_Ok.
  destruct (traverse tensor_max q') as [ms|e]; [|done]. rewrite bind_Ok.
  intros [= <-]. by eexists.
Qed.

(** What one call can do to the fields outside the network and its
    optimiser. *)
Lemma agent_step_frame (a b : DeepQLearningModel) :
  agent_step a b →
  same_hyperparameters a b
  ∧ (memory b = memory a
     ∨ ∃ t, memory b = deque_append (max_memory a) (memory a) t)
  ∧ (epsilon b = epsilon a
     ∨ epsilon b = pymax (rmul (epsilon a) (epsilon_decay a)) (epsilon_min a))
  ∧ optimizer_steps a ≤ optimizer_steps b
  ∧ (training a = false → training b = false).
Proof.
  assert (∀ loss s,
            same_hyperparameters a s → memory s = memory a →
            epsilon s = epsilon a → training s = training a →
            optimizer_steps s = optimizer_steps a →
            let b := optimizer_step (backward loss s) in
            same_hyperparameters a b
            ∧ (memory b = memory a
               ∨ ∃ t, memory b = deque_append (max_memory a) (memory a) t)
            ∧ (epsilon b = epsilon a
               ∨ epsilon b = pymax (rmul (epsilon a) (epsilon_decay a)) (epsilon_min a))
            ∧ optimizer_steps a ≤ optimizer_steps b
            ∧ (training a = false → training b = false)) as Htrain.
  { intros loss s Hh Hm He Ht Hs b0.
    destruct (optimizer_step_frame (backward loss s))
      as (Hh' & Hm' & He' & Ht' & Hs'). fold b0 in Hh', Hm', He', Ht', Hs'.
    simpl in *. unfold same_hyperparameters in *. simpl in *.
    rewrite Hm', He', Ht', Hs', Hm, He, Ht, Hs.
    split; [intuition congruence|]. split; [by left|]. split; [by left|].
    split; [lia | done]. }
  intros [ | state action reward next_state done
           | state action reward next_state done self' Hrun
           | g self' g' Hrun
           | fs filename self' out Hrun ].
  - unfold same_hyperparameters. simpl. split; [done|]. split; [by left|].
    split; [by right|]. done.
  - unfold same_hyperparameters. simpl. split; [done|]. split; [right; by eexists|].
    split; [by left|]. done.
  - apply train_short_memory_inv in Hrun as [loss ->].
    by apply (Htrain loss (zero_grad a)).
  - unfold train_long_memory in Hrun. case_decide.
    + injection Hrun as <- _. unfold same_hyperparameters.
      split; [done|]. split; [by left|]. split; [by left|]. done.
    + destruct (sample g (length (memory a)) (batch_size a)) as [positions g1].
      injection Hrun as Hrun _.
      apply train_on_batch_inv in Hrun as [loss ->]. by apply (Htrain loss a).
  - unfold load_model in Hrun. destruct (fs !! filename) as [n|].
    + destruct (match n with File b0 => torch_load b0 | Dir => Raise OSError end)
        as [sd|e]; [|done]. simpl in Hrun.
      destruct (load_state_dict (model a) sd) as [net|e]; [|done]. simpl in Hrun.
      injection Hrun as <- _. unfold same_hyperparameters. simpl.
      split; [done|]. split; [by left|]. split; [by left|]. done.
    + injection Hrun as <- _. unfold same_hyperparameters.
      split; [done|]. split; [by left|]. split; [by left|]. done.
Qed.

(** X17. Whatever methods are called on an agent, in any order and with
    any arguments: the hyper-parameters set by the constructor never change,
    a memory within its capacity stays within it, the count of optimiser
    steps never goes down, and a network in evaluation mode stays in it (no
    method switches back to training mode). *)
Theorem agent_invariants (a b : DeepQLearningModel) :
  rtc agent_step a b →
  same_hyperparameters a b
  ∧ (length (memory a) ≤ max_memory a → length (memory b) ≤ max_memory b)
  ∧ optimizer_steps a ≤ optimizer_steps b
  ∧ (training a = false → training b = false).
Proof.
  induction 1 as [a | a b c Hstep _ IH].
  - unfold same_hyperparameters. by repeat split.
  - destruct (agent_step_frame a b Hstep) as (Hh & Hm & _ & Hs & Ht).
    destruct IH as (Hh' & Hm' & Hs' & Ht').
    unfold same_hyperparameters in *.
    split; [intuition congruence|].
    split; [|split; [lia | tauto]].
    intros Hcap. apply Hm'.
    destruct Hh as (_ & _ & _ & -> & _).
    destruct Hm as [-> | [t ->]]; [done | by apply deque_append_length].
Qed.

(** X18. Across any sequence of method calls, not only of
    [decay_epsilon]: when [0 <= epsilon_min <= epsilon] and
    [epsilon_decay <= 1] hold at the start, the exploration rate at the end
    is at most the rate at the start and at least [epsilon_min]. *)
Theorem epsilon_never_increases (a b : DeepQLearningModel) :
  rtc agent_step a b →
  rleb rzero (epsilon_min a) = true →
  rleb (epsilon_min a) (epsilon a) = true →
  rleb (epsilon_decay a) rone = true →
  rleb (epsilon b) (epsilon a) = true
  ∧ rleb (epsilon_min a) (epsilon b) = true.
Proof.
  induction 1 as [a | a b c Hstep _ IH]; intros H0 Hmin Hrate.
  - split; [apply rleb_refl | done].
  - destruct (agent_step_frame a b Hstep) as (Hh & _ & He & _).
    destruct Hh as (_ & _ & _ & _ & _ & _ & Hmin' & Hrate').
    assert (rleb (epsilon b) (epsilon a) = true
            ∧ rleb (epsilon_min a) (epsilon b) = true) as [Hle Hfloor].
    { destruct He as [-> | ->]; [by split; [apply rleb_refl|]|].
      destruct (pymax_spec (rmul (epsilon a) (epsilon_decay a)) (epsilon_min a))
        as (_ & Hge & [Hor | Hor]); rewrite Hor in *;
        [|split; [done | apply rleb_refl]].
      split; [|done]. apply rmul_le_self; [|done].
      by apply (rleb_trans _ (epsilon_min a)). }
    rewrite Hmin', Hrate' in IH.
    destruct (IH H0 Hfloor Hrate) as [Hle' Hfloor'].
    split; [by apply (rleb_trans _ (epsilon b)) | done].
Qed.

End PersistenceProperties.

Section FloorProperties.
Context {R : Type} `{!Scalar R} `{!Backend R}.

(** X19. The floor absorbs: an exploration rate between zero and
    [epsilon_min], with a decay rate of at most one, is put at
    [epsilon_min] by [decay_epsilon] (it is both at most and at least
    [epsilon_min] afterwards), and every later call leaves it there. *)
Theorem decay_epsilon_floor_absorbs (self : DeepQLearningModel) (n : nat) :
  rleb rzero (epsilon self) = true →
  rleb (epsilon self) (epsilon_min self) = true →
  rleb (epsilon_decay self) rone = true →
  rleb (epsilon (Nat.iter (S n) decay_epsilon self)) (epsilon_min self) = true
  ∧ rleb (epsilon_min self) (epsilon (Nat.iter (S n) decay_epsilon self)) = true.
Proof.
  intros H0 Hle Hrate.
  assert (∀ s : DeepQLearningModel,
            rleb rzero (epsilon s) = true →
            rleb (epsilon s) (epsilon_min s) = true →
            rleb (epsilon_decay s) rone = true →
            rleb (epsilon (decay_epsilon s)) (epsilon_min s) = true
            ∧ rleb (epsilon_min s) (epsilon (decay_epsilon s)) = true
            ∧ rleb rzero (epsilon (decay_epsilon s)) = true) as Hstep.
  { intros s Hs0 Hsle Hsrate. simpl.
    destruct (pymax_spec (rmul (epsilon s) (epsilon_decay s)) (epsilon_min s))
      as (Hge1 & Hge2 & Hor).
    assert (rleb (rmul (epsilon s) (epsilon_decay s)) (epsilon_min s) = true) as Hprod
      by (apply (rleb_trans _ (epsilon s)); [by apply rmul_le_self | done]).
    assert (rleb rzero (epsilon_min s) = true) as Hmin0
      by by apply (rleb_trans _ (epsilon s)).
    split; [by destruct Hor as [-> | ->]; [|apply rleb_refl]|].
    split; [done|]. by apply (rleb_trans _ (epsilon_min s)). }
  induction n as [|n IH].
  - destruct (Hstep self H0 Hle Hrate) as (? & ? & _). by split.
  - destruct (decay_epsilon_iter_frame self (S n)) as [Hmin Hdecay].
    destruct IH as [IH1 IH2].
    assert (rleb rzero (epsilon (Nat.iter (S n) decay_epsilon self)) = true) as Hpos.
    { apply (rleb_trans _ (epsilon_min self)); [|done].
      by apply (rleb_trans _ (epsilon self)). }
    destruct (Hstep (Nat.iter (S n) decay_epsilon self)) as (Ha & Hb & _);
      [done | by rewrite Hmin | by rewrite Hdecay |].
    rewrite Hmin in Ha, Hb. by split.
Qed.

End FloorProperties.

(** ** Concrete runs of the further properties *)

Lemma get_reward_unit_move_witness :
  let snake := example_snake (5, 7)%Z (5, 6)%Z in
  manhattan (head_position snake) (get_next_head_position snake) = 1%Z
  ∧ is_within_bounds example_board (get_next_head_position snake) = true
  ∧ has_collision snake = false
  ∧ get_next_head_position snake ≠ position example_food
  ∧ ((get_reward snake example_food example_board = 1%Z
      ∧ manhattan (get_next_head_position snake) (position example_food)
        = (manhattan (head_position snake) (position example_food) - 1)%Z)
     ∨ (get_reward snake example_food example_board = (-1)%Z
        ∧ manhattan (get_next_head_position snake) (position example_food)
          = (manhattan (head_position snake) (position example_food) + 1)%Z)).
Proof.
  intros snake.
  assert (get_next_head_position snake ≠ position example_food) as Hfood
    by discriminate.
  split; [reflexivity|]. split; [reflexivity|]. split; [reflexivity|].
  split; [exact Hfood|].
  exact (get_reward_unit_move snake example_food example_board
           eq_refl eq_refl eq_refl Hfood).
Defined.

Lemma get_state_direction_one_hot_witness :
  width example_board ≠ 0%Z ∧ height example_board ≠ 0%Z
  ∧ ∃ (v : list (number Qc)) (up : Z),
      get_state (example_snake (5, 6)%Z (5, 5)%Z) example_food example_board = Ok v
      ∧ v !! 2 = Some (Int up).
Proof.
  split; [discriminate|]. split; [discriminate|].
  destruct (get_state_direction_one_hot (R := Qc) (example_snake (5, 6)%Z (5, 5)%Z)
              example_food example_board)
    as (v & up & down & left & right & Hv & Hup & _);
    [discriminate | discriminate |].
  exists v, up. split; assumption.
Defined.

Lemma get_state_body_as_set_witness :
  let snake := example_snake (5, 6)%Z (5, 5)%Z in
  let segments := [(6, 7); (5, 7); (5, 6); (5, 7)]%Z in
  (∀ seg, seg ∈ segments ↔ seg ∈ body snake)
  ∧ get_state (R := Qc) (set_body snake segments) example_food example_board
    = get_state snake example_food example_board.
Proof.
  intros snake segments.
  assert (∀ seg, seg ∈ segments ↔ seg ∈ body snake) as Hsame.
  { intros seg. unfold segments, snake. simpl. rewrite !elem_of_cons.
    rewrite !elem_of_nil. tauto. }
  split; [exact Hsame|].
  exact (get_state_body_as_set snake example_food example_board segments Hsame).
Defined.

Lemma forward_shape_witness :
  wf_network example_net
  ∧ ∃ q, forward example_net (tensor (example_state (5, 6)%Z (5, 5)%Z)) = Ok q
         ∧ length q = 2.
Proof.
  split; [exact example_net_wf|].
  destruct (forward_shape example_net (tensor (example_state (5, 6)%Z (5, 5)%Z))
              example_net_wf) as [Hok _].
  exact (Hok eq_refl).
Defined.

Lemma greedy_action_value_is_max_witness :
  let self := example_agent 2 1 (Q2Qc 1) default_epsilon_decay in
  let next_state := example_state (5, 6)%Z (5, 5)%Z in
  wf_network (model self)
  ∧ length next_state = in_features (linear1 (model self))
  ∧ 0 < out_features (linear3 (model self))
  ∧ ∃ q a m, forward (model self) (tensor next_state) = Ok q
             ∧ (choose_action self next_state (Some rzero) 0%nat).1 = Ok (Z.of_nat a)
             ∧ tensor_max q = Ok m
             ∧ q !! a = Some m.
Proof.
  intros self next_state.
  assert (0 < out_features (linear3 (model self))) as Hout
    by (apply Nat.ltb_lt; reflexivity).
  split; [exact example_net_wf|]. split; [reflexivity|]. split; [exact Hout|].
  exact (greedy_action_value_is_max (Random0 := toy_random) self next_state 0%nat
           example_net_wf eq_refl Hout).
Defined.

Lemma choose_action_explores_witness :
  let self := example_agent 2 1 (Q2Qc 1) default_epsilon_decay in
  rleb rone (default (epsilon self) None) = true
  ∧ (1 ≤ action_space_size self)%Z
  ∧ ∃ a, (choose_action self [] None 0%nat).1 = Ok a
         ∧ (0 ≤ a < action_space_size self)%Z.
Proof.
  intros self.
  assert (1 ≤ action_space_size self)%Z as Hn by (apply Z.leb_le; reflexivity).
  split; [reflexivity|]. split; [exact Hn|].
  destruct (choose_action_explores (Random0 := toy_random) self [] None 0%nat eq_refl)
    as [Hok _].
  exact (Hok Hn).
Defined.

Lemma choose_action_in_range_witness :
  let self := example_agent 2 1 (Q2Qc (1 # 4)) default_epsilon_decay in
  let state := example_state (5, 6)%Z (5, 5)%Z in
  wf_network (model self)
  ∧ length state = in_features (linear1 (model self))
  ∧ action_space_size self = Z.of_nat (out_features (linear3 (model self)))
  ∧ 0 < out_features (linear3 (model self))
  ∧ ∃ a, (choose_action self state None 0%nat).1 = Ok a
         ∧ (0 ≤ a < action_space_size self)%Z.
Proof.
  intros self state.
  assert (0 < out_features (linear3 (model self))) as Hout
    by (apply Nat.ltb_lt; reflexivity).
  split; [exact example_net_wf|]. split; [reflexivity|]. split; [reflexivity|].
  split; [exact Hout|].
  exact (choose_action_in_range (Random0 := toy_random) self state None 0%nat
           example_net_wf eq_refl eq_refl Hout).
Defined.

Lemma choose_action_wrong_width_witness :
  let self := example_agent 2 1 (Q2Qc 1) default_epsilon_decay in
  length ([Int 1; Int 2] : list (number Qc)) ≠ in_features (linear1 (model self))
  ∧ (choose_action self [Int 1; Int 2] (Some rzero) 0%nat).1 = Raise RuntimeError.
Proof.
  intros self.
  assert (length ([Int 1; Int 2] : list (number Qc))
          ≠ in_features (linear1 (model self))) as Hlen by discriminate.
  split; [exact Hlen|].
  exact (choose_action_wrong_width (Random0 := toy_random) self [Int 1; Int 2]
           0%nat Hlen).
Defined.

Lemma remember_all_suffix_witness :
  let self := remember_all (example_agent 2 1 (Q2Qc 1) default_epsilon_decay)
                [example_transition 1 false] in
  let ts := [example_transition 10 true; example_transition (-1) false] in
  length (memory self) ≤ max_memory self
  ∧ max_memory self ≤ length ts
  ∧ memory (remember_all self ts) = ts.
Proof.
  intros self ts.
  assert (length (memory self) ≤ max_memory self) as Hcap
    by (apply Nat.leb_le; reflexivity).
  assert (max_memory self ≤ length ts) as Hlen by (apply Nat.leb_le; reflexivity).
  split; [exact Hcap|]. split; [exact Hlen|].
  destruct (remember_all_suffix self ts Hcap) as [_ Hflush].
  exact (Hflush Hlen).
Defined.

Lemma train_short_memory_depends_on_witness :
  let a := example_agent 2 1 (Q2Qc 1) default_epsilon_decay in
  let b := set_grad
             (remember (example_agent 2 1 (Q2Qc (1 # 2)) default_epsilon_decay)
                [] 0 (Int 1) [] true)
             (Some (Q2Qc 1)) in
  let state := example_state (5, 7)%Z (5, 6)%Z in
  let next_state := example_state (5, 6)%Z (5, 5)%Z in
  model a = model b ∧ optimizer a = optimizer b
  ∧ learning_rate a = learning_rate b ∧ gamma a = gamma b
  ∧ match train_short_memory a state 1 (Int 1) next_state false,
          train_short_memory b state 1 (Int 1) next_state false with
    | Ok a', Ok b' =>
        model a' = model b' ∧ optimizer a' = optimizer b' ∧ grad a' = grad b'
    | Raise e, Raise e' => e = e'
    | _, _ => False
    end.
Proof.
  intros a b state next_state.
  do 4 (split; [reflexivity|]).
  exact (train_short_memory_depends_on a b state 1 (Int 1) next_state false
           eq_refl eq_refl eq_refl eq_refl).
Defined.

Lemma train_short_memory_rejects_witness :
  let self := example_agent 2 1 (Q2Qc 1) default_epsilon_decay in
  let state := example_state (5, 7)%Z (5, 6)%Z in
  wf_network (model self)
  ∧ out_features (linear3 (model self)) ≤ 2
  ∧ ∃ e, train_short_memory self state 2 (Int 1) state false = Raise e.
Proof.
  intros self state.
  assert (out_features (linear3 (model self)) ≤ 2) as Ha
    by (apply Nat.leb_le; reflexivity).
  split; [exact example_net_wf|]. split; [exact Ha|].
  exact (train_short_memory_rejects self state 2 (Int 1) state false
           example_net_wf (or_intror (or_intror Ha))).
Defined.

Lemma train_long_memory_zero_batch_witness :
  let self := remember_all (example_agent 2 0 (Q2Qc 1) default_epsilon_decay)
                [example_transition 1 false] in
  batch_size self = 0
  ∧ (train_long_memory self 0%nat).1 = Raise ValueError.
Proof.
  intros self. split; [reflexivity|].
  exact (train_long_memory_zero_batch (Random0 := toy_random) self 0%nat eq_refl).
Defined.


Lemma agent_invariants_witness :
  let a := example_agent 2 1 (Q2Qc 1) default_epsilon_decay in
  let b := decay_epsilon
             (remember a (example_state (5, 7)%Z (5, 6)%Z) 1 (Int 1)
                (example_state (5, 6)%Z (5, 5)%Z) false) in
  rtc agent_step a b
  ∧ same_hyperparameters a b
  ∧ (length (memory a) ≤ max_memory a → length (memory b) ≤ max_memory b).
Proof.
  intros a b.
  assert (rtc agent_step a b) as Hrun.
  { eapply rtc_l; [apply step_remember|]. apply rtc_once, step_decay_epsilon. }
  split; [exact Hrun|].
  destruct (agent_invariants a b Hrun) as (Hh & Hm & _).
  split; [exact Hh | exact Hm].
Defined.

Lemma epsilon_never_increases_witness :
  let a := example_agent 2 1 (Q2Qc 1) default_epsilon_decay in
  let b := decay_epsilon
             (remember (decay_epsilon a) (example_state (5, 7)%Z (5, 6)%Z) 1 (Int 1)
                (example_state (5, 6)%Z (5, 5)%Z) false) in
  rtc agent_step a b
  ∧ rleb rzero (epsilon_min a) = true
  ∧ rleb (epsilon_min a) (epsilon a) = true
  ∧ rleb (epsilon_decay a) rone = true
  ∧ rleb (epsilon b) (epsilon a) = true
  ∧ rleb (epsilon_min a) (epsilon b) = true.
Proof.
  intros a b.
  assert (rtc agent_step a b) as Hrun.
  { eapply rtc_l; [apply step_decay_epsilon|].
    eapply rtc_l; [apply step_remember|]. apply rtc_once, step_decay_epsilon. }
  split; [exact Hrun|]. do 3 (split; [reflexivity|]).
  exact (epsilon_never_increases a b Hrun eq_refl eq_refl eq_refl).
Defined.

Lemma decay_epsilon_floor_absorbs_witness :
  let self := example_agent 2 1 default_epsilon_end default_epsilon_decay in
  rleb rzero (epsilon self) = true
  ∧ rleb (epsilon self) (epsilon_min self) = true
  ∧ rleb (epsilon_decay self) rone = true
  ∧ rleb (epsilon (Nat.iter 3 decay_epsilon self)) (epsilon_min self) = true
  ∧ rleb (epsilon_min self) (epsilon (Nat.iter 3 decay_epsilon self)) = true.
Proof.
  intros self. do 3 (split; [reflexivity|]).
  exact (decay_epsilon_floor_absorbs self 2 eq_refl eq_refl eq_refl).
Defined.
